(** * The RAG pipeline steps of [PART1_RAG_IMPLEMENTATION/step.py]

    A shallow embedding of the three pipeline steps
    [analyze_query_step], [retrieve_step] and [generate_step].

    The steps are thin orchestration code over three external
    collaborators (a language model, a vector store, a prompt template),
    the logger, standard output and one transcript file.  They are
    embedded in a state-and-exception monad over a [World] that holds the
    state of the collaborators, the file system and the chronological
    trace of every observable action. *)

From Stdlib Require Import String Ascii List Arith Lia DecimalString.
From stdpp Require Import base option list gmap strings.

Import ListNotations.
Local Open Scope string_scope.
Local Open Scope list_scope.

(** ** Python values *)

(** The character [\n]. *)
Definition nl : string := String (ascii_of_nat 10) EmptyString.

(** [str(n)] for a non-negative integer. *)
Definition str_of_nat (n : nat) : string :=
  NilZero.string_of_uint (Nat.to_uint n).

(** [sep.join(parts)]. *)
Definition join (sep : string) (parts : list string) : string :=
  String.concat sep parts.

(** [langchain_core.documents.Document]: the two fields the steps read.
    Dictionaries with string keys, as the metadata here and the [Search]
    structured query (a [TypedDict], indexed by the steps with ["query"]
    and ["section"]), are written [gmap string string] throughout. *)
Record Document : Type := mkDocument {
  page_content : string;
  metadata : gmap string string
}.

(** The response object of [llm.invoke]: the field the step reads. *)
Record Response : Type := mkResponse {
  content : string
}.

(** Exceptions, by origin.  [KeyError] is raised by the steps' own
    dictionary subscripts; the others are whatever the collaborators or
    the file system raise, carried with their detail. *)
Inductive exn : Type :=
| KeyError (key : string)
| ModelInvocationError (detail : string)
| VectorStoreError (detail : string)
| PromptTemplateError (detail : string)
| IOError (detail : string).

(** Operations on the transcript file that can fail. *)
Inductive IoOp : Type :=
| OpOpenW (path : string)
| OpWrite (path data : string)
| OpClose (path : string).

(** What the steps take from the Python runtime around them. *)
Class Runtime : Type := mkRuntime {
  (** [str(d)] of a [Search] dictionary, as the f-strings of the log
      lines call it. *)
  str_search : gmap string string -> string;
  (** The fault schedule of the file system: whether the [n]-th file
      operation attempted since the start fails, and with which detail. *)
  io_fault : nat -> IoOp -> option string
}.

Section Pipeline.

(** The formatted prompt handed from the template to the model. *)
Variable PromptValue : Type.

(** The state of the external collaborators (model, index, template):
    each call reads it and may change it. *)
Variable Ext : Type.

Context {rt : Runtime}.

(** ** Observable actions *)

Inductive Event : Type :=
| EvLogInfo (msg : string)
| EvPrint (msg : string)
| EvWithStructuredOutput
| EvStructuredInvoke (input : string)
| EvSimilaritySearch (query : string) (k : nat)
| EvPromptInvoke (args : gmap string string)
| EvLlmInvoke (messages : PromptValue)
| EvOpenW (path : string)
| EvWrite (path data : string)
| EvClose (path : string).

Record World : Type := mkWorld {
  ext : Ext;                      (* state of the collaborators *)
  files : gmap string string;     (* file contents by path *)
  io_clock : nat;                 (* file operations attempted so far *)
  trace : list Event              (* observable actions, oldest first *)
}.

(** ** External capabilities *)

(** A call to a collaborator either raises (with a detail) or returns,
    and leaves the collaborators in a new state. *)
Definition Call (A : Type) : Type := Ext -> (string + A) * Ext.

(** The model variant returned by [with_structured_output(Search)]. *)
Record StructuredModel : Type := mkStructuredModel {
  structured_invoke : string -> Call (gmap string string)
}.

Record LanguageModel : Type := mkLanguageModel {
  invoke : PromptValue -> Call Response;
  with_structured_output : Call StructuredModel
}.

Record VectorStore : Type := mkVectorStore {
  similarity_search : string -> nat -> Call (list Document)
}.

Record PromptTemplate : Type := mkPromptTemplate {
  prompt_invoke : gmap string string -> Call PromptValue
}.

(** ** The monad of the steps *)

Definition M (A : Type) : Type := World -> (exn + A) * World.

Definition ret {A : Type} (a : A) : M A := fun w => (inr a, w).

Definition raise {A : Type} (e : exn) : M A := fun w => (inl e, w).

Definition bind {A B : Type} (m : M A) (k : A -> M B) : M B :=
  fun w =>
    match m w with
    | (inl e, w') => (inl e, w')
    | (inr a, w') => k a w'
    end.

Notation "x <- c ;; k" := (bind c (fun x => k))
  (at level 100, c at next level, right associativity).
Notation "c ;;; k" := (bind c (fun _ => k))
  (at level 100, right associativity).

Definition emit (e : Event) : M unit :=
  fun w => (inr tt, mkWorld (ext w) (files w) (io_clock w) (trace w ++ [e])).

(** [logger.info(msg)] and [print(msg)]. *)
Definition log_info (msg : string) : M unit := emit (EvLogInfo msg).
Definition print (msg : string) : M unit := emit (EvPrint msg).

(** One call to a collaborator: recorded in the trace, its exception
    (if any) raised in the step. *)
Definition call {A : Type} (ev : Event) (wrap : string -> exn) (c : Call A)
  : M A :=
  fun w =>
    let '(r, x') := c (ext w) in
    (match r with
     | inl detail => inl (wrap detail)
     | inr a => inr a
     end,
     mkWorld x' (files w) (io_clock w) (trace w ++ [ev])).

(** [d[key]]: raises [KeyError] when the key is absent. *)
Definition subscript (d : gmap string string) (key : string) : M string :=
  match d !! key with
  | Some v => ret v
  | None => raise (KeyError key)
  end.

(** ** The transcript file *)

(** One file operation: it fails as the fault schedule says, leaving the
    files as they are, or takes effect and is recorded. *)
Definition file_op (op : IoOp) (ev : Event)
    (effect : gmap string string -> gmap string string) : M unit :=
  fun w =>
    match io_fault (io_clock w) op with
    | Some detail =>
        (inl (IOError detail),
         mkWorld (ext w) (files w) (S (io_clock w)) (trace w))
    | None =>
        (inr tt,
         mkWorld (ext w) (effect (files w)) (S (io_clock w)) (trace w ++ [ev]))
    end.

(** [open(path, "w")]: creates or truncates the file. *)
Definition open_w (path : string) : M unit :=
  file_op (OpOpenW path) (EvOpenW path) (fun fs => <[path := ""]> fs).

(** [f.write(data)] on the file opened at [path]: appends at the end. *)
Definition write (path data : string) : M unit :=
  file_op (OpWrite path data) (EvWrite path data)
          (fun fs => <[path := default "" (fs !! path) +:+ data]> fs).

(** [f.close()]. *)
Definition close (path : string) : M unit :=
  file_op (OpClose path) (EvClose path) (fun fs => fs).

(** [with open(path, "w") as f: body]: the file is closed on every way
    out of the body; an exception of [close] replaces the body's. *)
Definition with_open_w {A : Type} (path : string) (body : M A) : M A :=
  open_w path ;;;
  fun w =>
    let '(r, w1) := body w in
    let '(c, w2) := close path w1 in
    (match c with
     | inl e => inl e
     | inr _ => r
     end, w2).

(** [for x in xs: f x]. *)
Fixpoint for_each {A : Type} (f : A -> M unit) (xs : list A) : M unit :=
  match xs with
  | [] => ret tt
  | x :: xs' => f x ;;; for_each f xs'
  end.

(** [enumerate(xs)], counting from [start]. *)
Fixpoint enumerate_from {A : Type} (start : nat) (xs : list A)
  : list (nat * A) :=
  match xs with
  | [] => []
  | x :: xs' => (start, x) :: enumerate_from (S start) xs'
  end.

Definition enumerate {A : Type} (xs : list A) : list (nat * A) :=
  enumerate_from 0 xs.

(** ** The three steps *)

Definition analyze_query_step (question : string) (llm : LanguageModel)
  : M (gmap string string) :=
  log_info ("Step: Query Analysis for question: '" +:+ question +:+ "'") ;;;
  structured_llm <-
    call EvWithStructuredOutput ModelInvocationError
         (with_structured_output llm) ;;
  query_structured <-
    call (EvStructuredInvoke question) ModelInvocationError
         (structured_invoke structured_llm question) ;;
  log_info ("Structured query: " +:+ str_search query_structured) ;;;
  ret query_structured.

Definition retrieve_step (structured_query : gmap string string)
    (vector_store : VectorStore) : M (list Document) :=
  log_info ("Step: retrieve for structured query: "
            +:+ str_search structured_query) ;;;
  query <- subscript structured_query "query" ;;
  retrieved_docs <-
    call (EvSimilaritySearch query 8) VectorStoreError
         (similarity_search vector_store query 8) ;;
  section <- subscript structured_query "section" ;;
  log_info ("Retrieved " +:+ str_of_nat (length retrieved_docs)
            +:+ " documents for section '" +:+ section +:+ "'.") ;;;
  ret retrieved_docs.

Definition output_path : string :=
  "PART1_RAG_IMPLEMENTATION\output_example.txt".

(** The text written for the [i]-th passage (counting from 0). *)
Definition chunk_text (i : nat) (doc : Document) : string :=
  "Document " +:+ str_of_nat (i + 1) +:+ " - Section: "
  +:+ default "N/A" (metadata doc !! "section") +:+ ":" +:+ nl
  +:+ page_content doc +:+ nl +:+ "---" +:+ nl.

Definition generate_step (question : string) (context_docs : list Document)
    (llm : LanguageModel) (prompt : PromptTemplate) : M string :=
  log_info ("Step: generate for question: '" +:+ question +:+ "'") ;;;
  docs_content <-
    match context_docs with
    | [] =>
        print "Warning: No context provided for generation. LLM may answer from general knowledge." ;;;
        ret "No specific context found."
    | _ :: _ =>
        ret (join (nl +:+ nl) (map page_content context_docs))
    end ;;
  messages <-
    call (EvPromptInvoke
            (<["question" := question]> (<["context" := docs_content]> ∅)))
         PromptTemplateError
         (prompt_invoke prompt
            (<["question" := question]> (<["context" := docs_content]> ∅))) ;;
  response <- call (EvLlmInvoke messages) ModelInvocationError
                   (invoke llm messages) ;;
  let generated_answer := content response in
  print (nl +:+ "Generated answer: " +:+ generated_answer) ;;;
  with_open_w output_path
    (write output_path ("Question:" +:+ nl +:+ question +:+ nl +:+ nl) ;;;
     write output_path (nl +:+ "--- Retrieved Context Documents ---" +:+ nl) ;;;
     for_each (fun '(i, doc) => write output_path (chunk_text i doc))
              (enumerate context_docs) ;;;
     write output_path ("Generated Answer:" +:+ nl) ;;;
     write output_path generated_answer) ;;;
  log_info (nl +:+ "Output saved to " +:+ output_path) ;;;
  ret generated_answer.

End Pipeline.

Arguments mkWorld {PromptValue Ext} ext files io_clock trace.
Arguments ext {PromptValue Ext} w.
Arguments files {PromptValue Ext} w.
Arguments io_clock {PromptValue Ext} w.
Arguments trace {PromptValue Ext} w.
Arguments EvLogInfo {PromptValue} msg.
Arguments EvPrint {PromptValue} msg.
Arguments EvWithStructuredOutput {PromptValue}.
Arguments EvStructuredInvoke {PromptValue} input.
Arguments EvSimilaritySearch {PromptValue} query k.
Arguments EvPromptInvoke {PromptValue} args.
Arguments EvLlmInvoke {PromptValue} messages.
Arguments EvOpenW {PromptValue} path.
Arguments EvWrite {PromptValue} path data.
Arguments EvClose {PromptValue} path.
Arguments mkStructuredModel {Ext} structured_invoke.
Arguments structured_invoke {Ext} s input x.
Arguments mkLanguageModel {PromptValue Ext} invoke with_structured_output.
Arguments invoke {PromptValue Ext} l messages x.
Arguments with_structured_output {PromptValue Ext} l x.
Arguments mkVectorStore {Ext} similarity_search.
Arguments similarity_search {Ext} v query k x.
Arguments mkPromptTemplate {PromptValue Ext} prompt_invoke.
Arguments prompt_invoke {PromptValue Ext} p args x.
Arguments ret {PromptValue Ext A} a w.
Arguments raise {PromptValue Ext A} e w.
Arguments bind {PromptValue Ext A B} m k w.
Arguments emit {PromptValue Ext} e w.
Arguments log_info {PromptValue Ext} msg w.
Arguments print {PromptValue Ext} msg w.
Arguments call {PromptValue Ext A} ev wrap c w.
Arguments subscript {PromptValue Ext} d key w.
Arguments file_op {PromptValue Ext rt} op ev effect w.
Arguments open_w {PromptValue Ext rt} path w.
Arguments write {PromptValue Ext rt} path data w.
Arguments close {PromptValue Ext rt} path w.
Arguments with_open_w {PromptValue Ext rt A} path body w.
Arguments for_each {PromptValue Ext A} f xs w.
Arguments analyze_query_step {PromptValue Ext rt} question llm w.
Arguments retrieve_step {PromptValue Ext rt} structured_query vector_store w.
Arguments generate_step {PromptValue Ext rt} question context_docs llm prompt w.

(** ** Stub collaborators

    Concrete collaborators in the style of test doubles: prompts are
    strings, and the collaborators' state is the number of calls they
    have served. *)

Module Stubs.

(** A rendering of a dictionary for the log lines. *)
Definition show_dict (d : gmap string string) : string :=
  "{" +:+ join ", "
            (map (fun kv => "'" +:+ fst kv +:+ "': '" +:+ snd kv +:+ "'")
                 (map_to_list d))
      +:+ "}".

(** A file system on which every operation succeeds. *)
Definition sound_runtime : Runtime :=
  mkRuntime show_dict (fun _ _ => None).

(** A file system whose [k]-th operation fails. *)
Definition faulty_runtime (k : nat) : Runtime :=
  mkRuntime show_dict
            (fun n _ => if Nat.eqb n k then Some "disk full" else None).

(** A model that answers every prompt with [answer] and every
    structured request with [s]. *)
Definition fixed_llm (answer : string) (s : gmap string string)
  : LanguageModel string nat :=
  mkLanguageModel
    (fun _ x => (inr (mkResponse answer), S x))
    (fun x => (inr (mkStructuredModel (fun _ x' => (inr s, S x'))), x)).

(** A model whose every invocation fails. *)
Definition broken_llm : LanguageModel string nat :=
  mkLanguageModel
    (fun _ x => (inl "timeout", S x))
    (fun x => (inr (mkStructuredModel (fun _ x' => (inl "timeout", S x'))),
               x)).

(** A model whose first invocation fails and whose later ones succeed. *)
Definition flaky_llm (answer : string) (s : gmap string string)
  : LanguageModel string nat :=
  mkLanguageModel
    (fun _ x => (match x with
                 | 0 => inl "overloaded"
                 | S _ => inr (mkResponse answer)
                 end, S x))
    (fun x => (inr (mkStructuredModel
                      (fun _ x' => (match x' with
                                    | 0 => inl "overloaded"
                                    | S _ => inr s
                                    end, S x'))), x)).

(** An index that returns the first [k] of the passages [ps]. *)
Definition fixed_store (ps : list Document) : VectorStore nat :=
  mkVectorStore (fun _ k x => (inr (take k ps), S x)).

(** An index whose search fails. *)
Definition broken_store : VectorStore nat :=
  mkVectorStore (fun _ _ x => (inl "index offline", S x)).

(** A template that lays out the question and the context. *)
Definition plain_prompt : PromptTemplate string nat :=
  mkPromptTemplate
    (fun args x =>
       (inr ("Context: " +:+ default "" (args !! "context") +:+ nl
             +:+ "Question: " +:+ default "" (args !! "question")), x)).

(** The world before a run, with the files [fs]. *)
Definition start (fs : gmap string string) : World string nat :=
  mkWorld 0 fs 0 [].

Definition intro_md : gmap string string := {[ "section" := "intro" ]}.

Definition search_X : gmap string string :=
  <["query" := "X"]> {[ "section" := "intro" ]}.

Definition passage_A : Document := mkDocument "A" intro_md.
Definition passage_B : Document := mkDocument "B" intro_md.

(** The same passages as an index without section metadata holds them. *)
Definition bare_A : Document := mkDocument "A" ∅.
Definition bare_B : Document := mkDocument "B" ∅.

(** A structured query as a model may emit it: both fields empty. *)
Definition blank_search : gmap string string :=
  <["query" := ""]> {[ "section" := "" ]}.

(** A structured query without the ["section"] key. *)
Definition query_only : gmap string string := {[ "query" := "X" ]}.

(** A template that cannot be formatted. *)
Definition broken_prompt : PromptTemplate string nat :=
  mkPromptTemplate (fun _ x => (inl "missing variable", x)).

(** A file system on which the write attempted as [k]-th operation
    fails, and nothing else. *)
Definition write_faulty_runtime (k : nat) : Runtime :=
  mkRuntime show_dict
            (fun n op => match op with
                         | OpWrite _ _ =>
                             if Nat.eqb n k then Some "disk full" else None
                         | _ => None
                         end).

End Stubs.

(** ** Vocabulary of the specification *)

(** [sub] occurs in [s]. *)
Definition contains (s sub : string) : Prop :=
  exists pre post : string, s = pre +:+ sub +:+ post.

(** [p] is a prefix of [s], and [sub] occurs in [s], decided. *)
Fixpoint prefixb (p s : string) : bool :=
  match p, s with
  | EmptyString, _ => true
  | String a p', String b s' => if Ascii.eqb a b then prefixb p' s' else false
  | String _ _, EmptyString => false
  end.

Fixpoint containsb (s sub : string) : bool :=
  prefixb sub s ||
  match s with
  | EmptyString => false
  | String _ s' => containsb s' sub
  end.

(** All the strings of a list, one after the other. *)
Definition concat_all (parts : list string) : string :=
  fold_right String.append "" parts.

(** The section label of a passage: its ["section"] metadata, or the
    fallback label. *)
Definition section_label (doc : Document) : string :=
  match metadata doc !! "section" with
  | Some s => s
  | None => "N/A"
  end.

(** The transcript entry of the passage numbered [n]. *)
Definition labelled_passage (n : nat) (doc : Document) : string :=
  "Document " +:+ str_of_nat n +:+ " - Section: " +:+ section_label doc
  +:+ ":" +:+ nl +:+ page_content doc +:+ nl +:+ "---" +:+ nl.

(** The passages numbered from [n] on. *)
Fixpoint labelled_passages (n : nat) (docs : list Document) : list string :=
  match docs with
  | [] => []
  | doc :: docs' => labelled_passage n doc :: labelled_passages (S n) docs'
  end.

(** The transcript of a run, as section 6 of the specification lays it
    out: the question, the labelled passages numbered from 1, the
    answer. *)
Definition transcript (question : string) (docs : list Document)
    (answer : string) : string :=
  ("Question:" +:+ nl +:+ question) +:+ (nl +:+ nl)
  +:+ (nl +:+ "--- Retrieved Context Documents ---" +:+ nl)
  +:+ concat_all (labelled_passages 1 docs)
  +:+ ("Generated Answer:" +:+ nl +:+ answer).

(** The context block of the specification: the passage contents
    separated by a blank line, or the placeholder when there is none. *)
Definition context_block (docs : list Document) : string :=
  match docs with
  | [] => "No specific context found."
  | _ :: _ => join (nl +:+ nl) (map page_content docs)
  end.

(** The named values handed to the prompt template. *)
Definition prompt_args (question : string) (docs : list Document)
  : gmap string string :=
  <["question" := question]> (<["context" := context_block docs]> ∅).

(** Both fields of a structured query are present and non-empty. *)
Definition fields_non_empty (s : gmap string string) : Prop :=
  exists q sec : string,
    s !! "query" = Some q /\ q <> "" /\ s !! "section" = Some sec /\ sec <> "".

Section Requests.

Context {PromptValue : Type}.

(** The requests a trace holds, per collaborator, oldest first. *)
Definition search_requests (t : list (Event PromptValue))
  : list (string * nat) :=
  omap (fun e => match e with
                 | EvSimilaritySearch q k => Some (q, k)
                 | _ => None
                 end) t.

Definition prompt_requests (t : list (Event PromptValue))
  : list (gmap string string) :=
  omap (fun e => match e with
                 | EvPromptInvoke args => Some args
                 | _ => None
                 end) t.

Definition llm_requests (t : list (Event PromptValue)) : list PromptValue :=
  omap (fun e => match e with
                 | EvLlmInvoke m => Some m
                 | _ => None
                 end) t.

Definition structured_requests (t : list (Event PromptValue))
  : list string :=
  omap (fun e => match e with
                 | EvStructuredInvoke q => Some q
                 | _ => None
                 end) t.

Definition structured_output_requests (t : list (Event PromptValue))
  : list unit :=
  omap (fun e => match e with
                 | EvWithStructuredOutput => Some tt
                 | _ => None
                 end) t.

Definition is_file_event (e : Event PromptValue) : bool :=
  match e with
  | EvOpenW _ | EvWrite _ _ | EvClose _ => true
  | _ => false
  end.

Definition is_open_event (e : Event PromptValue) : bool :=
  match e with
  | EvOpenW _ => true
  | _ => false
  end.

(** The actions on files of a trace. *)
Definition file_events (t : list (Event PromptValue))
  : list (Event PromptValue) :=
  List.filter is_file_event t.

(** The files opened in a trace. *)
Definition open_requests (t : list (Event PromptValue))
  : list (Event PromptValue) :=
  List.filter is_open_event t.

Definition is_close_event (e : Event PromptValue) : bool :=
  match e with
  | EvClose _ => true
  | _ => false
  end.

(** The files closed in a trace. *)
Definition close_requests (t : list (Event PromptValue))
  : list (Event PromptValue) :=
  List.filter is_close_event t.

(** The pieces written to files in a trace, oldest first. *)
Definition written (t : list (Event PromptValue)) : list string :=
  omap (fun e => match e with
                 | EvWrite _ data => Some data
                 | _ => None
                 end) t.

(** The lines handed to [logger.info] in a trace, oldest first. *)
Definition log_lines (t : list (Event PromptValue)) : list string :=
  omap (fun e => match e with
                 | EvLogInfo msg => Some msg
                 | _ => None
                 end) t.

(** The lines handed to [print] in a trace, oldest first. *)
Definition printed (t : list (Event PromptValue)) : list string :=
  omap (fun e => match e with
                 | EvPrint msg => Some msg
                 | _ => None
                 end) t.

End Requests.

Section Derived.

Context {PromptValue Ext : Type} {rt : Runtime}.

(** The pieces [generate_step] writes, in order. *)
Definition transcript_writes (question : string) (docs : list Document)
    (answer : string) : list string :=
  ("Question:" +:+ nl +:+ question +:+ nl +:+ nl)
    :: (nl +:+ "--- Retrieved Context Documents ---" +:+ nl)
    :: map (fun p : nat * Document => chunk_text (fst p) (snd p))
           (enumerate docs)
    ++ ["Generated Answer:" +:+ nl; answer].

(** The [with open(...)] block of [generate_step], as one sequence of
    writes. *)
Definition save_transcript (question : string) (docs : list Document)
    (answer : string) : M PromptValue Ext unit :=
  with_open_w output_path
    (for_each (write output_path) (transcript_writes question docs answer)).

(** What [generate_step] logs and prints before it formats the prompt. *)
Definition generate_preamble (question : string) (docs : list Document)
  : list (Event PromptValue) :=
  EvLogInfo ("Step: generate for question: '" +:+ question +:+ "'")
  :: match docs with
     | [] => [EvPrint "Warning: No context provided for generation. LLM may answer from general knowledge."]
     | _ :: _ => []
     end.

(** Modelled from the spec: the driver that runs the three steps in the
    fixed sequence Analyze, Retrieve, Generate of section 2; the caller
    of the steps is not part of [step.py]. *)
Definition pipeline (question : string)
    (llm : LanguageModel PromptValue Ext) (vector_store : VectorStore Ext)
    (prompt : PromptTemplate PromptValue Ext) : M PromptValue Ext string :=
  bind (analyze_query_step question llm) (fun structured_query =>
  bind (retrieve_step structured_query vector_store) (fun docs =>
  generate_step question docs llm prompt)).

End Derived.

(** * Properties *)

(** ** Strings *)

Lemma append_empty_l (b : string) : "" +:+ b = b.
Proof. reflexivity. Qed.

Lemma append_cons (x : ascii) (a b : string) :
  String x a +:+ b = String x (a +:+ b).
Proof. reflexivity. Qed.

Lemma append_assoc (a b c : string) : (a +:+ b) +:+ c = a +:+ (b +:+ c).
Proof.
  induction a as [|x a IH]; [reflexivity|].
  rewrite !append_cons. now rewrite IH.
Qed.

Lemma append_empty_r (a : string) : a +:+ "" = a.
Proof.
  induction a as [|x a IH]; [reflexivity|].
  rewrite append_cons. now rewrite IH.
Qed.

Lemma concat_all_app (xs ys : list string) :
  concat_all (xs ++ ys) = concat_all xs +:+ concat_all ys.
Proof.
  induction xs as [|x xs IH]; simpl; [reflexivity|].
  now rewrite IH, append_assoc.
Qed.

Lemma prefixb_spec (p s : string) :
  prefixb p s = true <-> exists post, s = p +:+ post.
Proof.
  revert s. induction p as [|a p IH]; intros s; simpl.
  - split; [intros _; now exists s | reflexivity].
  - destruct s as [|b s].
    + split; [discriminate | intros [post H]; discriminate].
    + destruct (Ascii.eqb_spec a b) as [->|Hne].
      * rewrite IH. split; intros [post H]; exists post.
        -- now rewrite H.
        -- rewrite append_cons in H. now injection H.
      * split; [discriminate|].
        intros [post H]. rewrite append_cons in H.
        injection H as H1 _. now symmetry in H1.
Qed.

Lemma containsb_spec (s sub : string) :
  containsb s sub = true <-> contains s sub.
Proof.
  unfold contains. induction s as [|b s IH]; simpl.
  - rewrite orb_false_r, prefixb_spec. split.
    + intros [post H]. now exists "", post.
    + intros [pre [post H]]. destruct pre; [now exists post|discriminate].
  - rewrite orb_true_iff, prefixb_spec, IH. split.
    + intros [[post H]|[pre [post H]]].
      * now exists "", post.
      * exists (String b pre), post. rewrite append_cons. now rewrite H.
    + intros [pre [post H]]. destruct pre as [|c pre].
      * left. now exists post.
      * right. rewrite append_cons in H. injection H as _ H.
        now exists pre, post.
Qed.

Lemma contains_refl_l (sub post : string) : contains (sub +:+ post) sub.
Proof. now exists "", post. Qed.

Lemma contains_app_l (pre s sub : string) :
  contains s sub -> contains (pre +:+ s) sub.
Proof.
  intros [a [b ->]]. exists (pre +:+ a), b. now rewrite append_assoc.
Qed.

Lemma contains_app_r (s post sub : string) :
  contains s sub -> contains (s +:+ post) sub.
Proof.
  intros [a [b ->]]. exists a, (b +:+ post). now rewrite !append_assoc.
Qed.

Lemma contains_prefix (s sub rest : string) :
  contains s (sub +:+ rest) -> contains s sub.
Proof.
  intros [a [b ->]]. exists a, (rest +:+ b). now rewrite append_assoc.
Qed.

(** ** Passages and their transcript entries *)

Lemma section_label_default (doc : Document) :
  default "N/A" (metadata doc !! "section") = section_label doc.
Proof. unfold section_label. now destruct (metadata doc !! "section"). Qed.

Lemma chunk_text_labelled (i : nat) (doc : Document) :
  chunk_text i doc = labelled_passage (S i) doc.
Proof.
  unfold chunk_text, labelled_passage.
  now rewrite section_label_default, Nat.add_1_r.
Qed.

Lemma chunks_labelled (n : nat) (docs : list Document) :
  map (fun p : nat * Document => chunk_text (fst p) (snd p))
      (enumerate_from n docs)
  = labelled_passages (S n) docs.
Proof.
  revert n. induction docs as [|doc docs IH]; intros n; simpl; [reflexivity|].
  now rewrite chunk_text_labelled, IH.
Qed.

Lemma labelled_passages_lookup (n i : nat) (docs : list Document)
    (doc : Document) :
  docs !! i = Some doc ->
  contains (concat_all (labelled_passages n docs)) (labelled_passage (n + i) doc).
Proof.
  revert n i. induction docs as [|d docs IH]; intros n i H; [discriminate|].
  destruct i as [|i]; simpl in *.
  - injection H as ->. rewrite Nat.add_0_r. apply contains_refl_l.
  - apply contains_app_l. replace (n + S i) with (S n + i) by lia.
    now apply IH.
Qed.

Lemma enumerate_from_length {A : Type} (n : nat) (xs : list A) :
  length (enumerate_from n xs) = length xs.
Proof.
  revert n. induction xs as [|x xs IH]; intros n; simpl; [reflexivity|].
  now rewrite IH.
Qed.

Lemma transcript_writes_length (question : string) (docs : list Document)
    (answer : string) :
  length (transcript_writes question docs answer) = length docs + 4.
Proof.
  unfold transcript_writes, enumerate. simpl.
  rewrite length_app, length_map, enumerate_from_length. simpl. lia.
Qed.

Lemma concat_transcript_writes (question : string) (docs : list Document)
    (answer : string) :
  concat_all (transcript_writes question docs answer)
  = transcript question docs answer.
Proof.
  unfold transcript_writes, transcript, enumerate.
  rewrite chunks_labelled. simpl. rewrite concat_all_app. simpl.
  now rewrite append_empty_r, !append_assoc.
Qed.

(** Traces are compared with their appends nested to the right. *)
Ltac norm_trace := rewrite <- ?app_assoc; cbn [app].

(** ** Runs of the file operations *)

Section Runs.

Context {PromptValue Ext : Type} {rt : Runtime}.
Implicit Types (w : World PromptValue Ext) (e : exn).

Lemma file_events_requests (evs : list (Event PromptValue)) :
  Forall (fun ev => is_file_event ev = true) evs ->
  search_requests evs = [] /\ prompt_requests evs = [] /\
  llm_requests evs = [] /\ structured_requests evs = [] /\
  structured_output_requests evs = [].
Proof.
  induction 1 as [|ev evs Hev _ IH]; [repeat split|].
  destruct IH as (H1 & H2 & H3 & H4 & H5).
  unfold search_requests, prompt_requests, llm_requests,
    structured_requests, structured_output_requests in *.
  destruct ev; try discriminate; simpl; auto.
Qed.

Lemma writes_are_file_events (p : string) (ds : list string) :
  Forall (fun ev : Event PromptValue => is_file_event ev = true)
         (map (EvWrite p) ds)
  /\ open_requests (map (@EvWrite PromptValue p) ds) = [].
Proof.
  induction ds as [|d ds [IH1 IH2]]; simpl; [split; [constructor|reflexivity]|].
  split; [constructor; [reflexivity|exact IH1]|exact IH2].
Qed.

(** A sequence of writes that completes has appended every piece. *)
Lemma for_each_write_ok (p : string) (ds : list string) w w' :
  for_each (write p) ds w = (inr tt, w') ->
  ext w' = ext w /\ io_clock w' = io_clock w + length ds /\
  trace w' = trace w ++ map (EvWrite p) ds /\
  (forall c, files w !! p = Some c ->
             files w' = <[p := c +:+ concat_all ds]> (files w)) /\
  (forall j, j < length ds -> exists op, io_fault (io_clock w + j) op = None).
Proof.
  revert w. induction ds as [|d ds IH]; intros w H.
  - injection H as <-. simpl. rewrite Nat.add_0_r, app_nil_r.
    repeat split; [|intros j Hj; lia].
    intros c Hc. rewrite append_empty_r. symmetry. now apply insert_id.
  - simpl in H. unfold bind, write, file_op in H.
    destruct (io_fault (io_clock w) (OpWrite p d)) as [detail|] eqn:Hf;
      [discriminate|].
    apply IH in H as (Hx & Hc & Ht & Hfs & Hj). simpl in *.
    repeat split.
    + exact Hx.
    + rewrite Hc. lia.
    + rewrite Ht, <- app_assoc. reflexivity.
    + intros c Hlk. rewrite (Hfs (c +:+ d)).
      * rewrite insert_insert_eq, append_assoc. reflexivity.
      * rewrite lookup_insert_eq, Hlk. reflexivity.
    + intros [|j] Hlt.
      * exists (OpWrite p d). now rewrite Nat.add_0_r.
      * destruct (Hj j) as [op Hop]; [lia|]. exists op.
        now replace (io_clock w + S j) with (S (io_clock w) + j) by lia.
Qed.

(** However a sequence of writes ends, it has only written, and it
    fails only with the error of a scheduled fault. *)
Lemma for_each_write_any (p : string) (ds : list string) w r w' :
  for_each (write p) ds w = (r, w') ->
  ext w' = ext w /\
  io_clock w <= io_clock w' <= io_clock w + length ds /\
  (exists k, trace w' = trace w ++ map (EvWrite p) (take k ds)) /\
  (forall e, r = inl e ->
             exists j op detail,
               j < length ds /\ io_fault (io_clock w + j) op = Some detail /\
               e = IOError detail).
Proof.
  revert w. induction ds as [|d ds IH]; intros w H.
  - injection H as <- <-. simpl. repeat split; try lia; [|discriminate].
    exists 0. now rewrite app_nil_r.
  - simpl in H. unfold bind, write, file_op in H.
    destruct (io_fault (io_clock w) (OpWrite p d)) as [detail|] eqn:Hf.
    + injection H as <- <-. simpl. repeat split; try lia.
      * exists 0. simpl. now rewrite app_nil_r.
      * intros e [= <-]. exists 0, (OpWrite p d), detail.
        rewrite Nat.add_0_r. repeat split; [lia|exact Hf].
    + apply IH in H as (Hx & Hc & [k Ht] & He).
      cbn [ext files io_clock trace length] in *.
      repeat split; try lia; [exact Hx| |].
      * exists (S k). rewrite Ht, <- app_assoc. reflexivity.
      * intros e Hr. destruct (He e Hr) as (j & op & detail & Hj & Hop & ->).
        exists (S j), op, detail. repeat split; [lia|].
        now replace (io_clock w + S j) with (S (io_clock w) + j) by lia.
Qed.

(** Without faults a sequence of writes completes. *)
Lemma for_each_write_sound (p : string) (ds : list string) w :
  (forall n op, io_fault n op = None) ->
  fst (for_each (write p) ds w) = inr tt.
Proof.
  intros Hs. revert w. induction ds as [|d ds IH]; intros w; [reflexivity|].
  simpl. unfold bind, write at 1, file_op. rewrite Hs. apply IH.
Qed.

(** The transcript block: what it leaves behind, whatever happens. *)
Lemma save_transcript_any (question : string) (docs : list Document)
    (answer : string) w r w' :
  save_transcript question docs answer w = (r, w') ->
  ext w' = ext w /\
  (exists evs, trace w' = trace w ++ evs /\
               Forall (fun ev => is_file_event ev = true) evs /\
               length (open_requests evs) <= 1) /\
  (forall e, r = inl e ->
             exists j op detail,
               j < length docs + 6 /\
               io_fault (io_clock w + j) op = Some detail /\
               e = IOError detail).
Proof.
  unfold save_transcript, with_open_w, bind, open_w, close, file_op.
  destruct (io_fault (io_clock w) (OpOpenW output_path)) as [d0|] eqn:Ho.
  { intros [= <- <-]. simpl. repeat split.
    - exists []. rewrite app_nil_r. repeat split; [constructor|simpl; lia].
    - intros e [= <-]. exists 0, (OpOpenW output_path), d0.
      rewrite Nat.add_0_r. repeat split; [lia|exact Ho]. }
  destruct (for_each _ _ _) as [rb w1] eqn:Hb.
  apply for_each_write_any in Hb as (Hx & Hclk & [k Ht] & He).
  rewrite transcript_writes_length in Hclk, He.
  cbn [ext files io_clock trace] in *.
  pose proof (writes_are_file_events output_path
                (take k (transcript_writes question docs answer)))
    as [Hfe Hop].
  destruct (io_fault (io_clock w1) (OpClose output_path)) as [dc|] eqn:Hc.
  - intros [= <- <-]. simpl. repeat split; [exact Hx| |].
    + eexists. rewrite Ht, <- app_assoc. split; [reflexivity|]. simpl.
      split; [constructor; [reflexivity|exact Hfe]|].
      unfold open_requests in *. simpl. rewrite Hop. simpl. lia.
    + intros e [= <-].
      exists (io_clock w1 - io_clock w), (OpClose output_path), dc.
      split; [lia|]. split; [|reflexivity].
      now replace (io_clock w + (io_clock w1 - io_clock w))
        with (io_clock w1) by lia.
  - intros [= <- <-]. simpl. repeat split; [exact Hx| |].
    + eexists. rewrite Ht, <- !app_assoc. split; [reflexivity|]. simpl.
      split.
      * constructor; [reflexivity|].
        apply Forall_app. split; [exact Hfe|].
        constructor; [reflexivity|constructor].
      * unfold open_requests in *. simpl. rewrite List.filter_app, Hop.
        simpl. lia.
    + intros e Hr. destruct (He e Hr) as (j & op & detail & Hj & Hop' & ->).
      exists (S j), op, detail. repeat split; [lia|].
      now replace (io_clock w + S j) with (S (io_clock w) + j) by lia.
Qed.

(** The transcript block when it completes: the file holds exactly the
    transcript, and no file operation failed. *)
Lemma save_transcript_ok (question : string) (docs : list Document)
    (answer : string) w w' :
  save_transcript question docs answer w = (inr tt, w') ->
  files w' = <[output_path := transcript question docs answer]> (files w) /\
  (forall j, j < length docs + 6 ->
             exists op, io_fault (io_clock w + j) op = None).
Proof.
  unfold save_transcript, with_open_w, bind, open_w, close, file_op.
  destruct (io_fault (io_clock w) (OpOpenW output_path)) as [d0|] eqn:Ho;
    [discriminate|].
  destruct (for_each _ _ _) as [rb w1] eqn:Hb.
  destruct (io_fault (io_clock w1) (OpClose output_path)) as [dc|] eqn:Hc;
    [discriminate|].
  intros [= -> <-]. simpl.
  apply for_each_write_ok in Hb as (Hx & Hclk & Ht & Hfs & Hj).
  cbn [files io_clock ext trace] in *.
  pose proof (transcript_writes_length question docs answer) as Hlen.
  split.
  - rewrite (Hfs ""); [|now rewrite lookup_insert_eq].
    rewrite insert_insert_eq, append_empty_l, concat_transcript_writes.
    reflexivity.
  - intros j Hlt. destruct j as [|j].
    + exists (OpOpenW output_path). now rewrite Nat.add_0_r.
    + destruct (Nat.eq_dec j (length docs + 4)) as [->|Hne].
      * exists (OpClose output_path).
        rewrite Hclk, Hlen in Hc.
        now replace (io_clock w + S (length docs + 4))
          with (S (io_clock w) + (length docs + 4)) by lia.
      * destruct (Hj j) as [op Hop]; [rewrite Hlen; lia|]. exists op.
        now replace (io_clock w + S j) with (S (io_clock w) + j) by lia.
Qed.

End Runs.

(** ** Runs of [generate_step] *)

Section GenerateRuns.

Context {PromptValue Ext : Type} {rt : Runtime}.
Implicit Types (w : World PromptValue Ext) (e : exn).

Lemma for_each_map {A B : Type} (f : A -> B)
    (g : B -> M PromptValue Ext unit) (xs : list A) w :
  for_each (fun x => g (f x)) xs w = for_each g (map f xs) w.
Proof.
  revert w. induction xs as [|x xs IH]; intros w; simpl; [reflexivity|].
  unfold bind. destruct (g (f x) w) as [[e|[]] w1]; [reflexivity|apply IH].
Qed.

Lemma for_each_ext {A : Type} (f g : A -> M PromptValue Ext unit)
    (xs : list A) w :
  (forall x w0, f x w0 = g x w0) -> for_each f xs w = for_each g xs w.
Proof.
  intros Hfg. revert w. induction xs as [|x xs IH]; intros w; simpl;
    [reflexivity|].
  unfold bind. rewrite Hfg.
  destruct (g x w) as [[e|[]] w1]; [reflexivity|apply IH].
Qed.

Lemma for_each_app {A : Type} (g : A -> M PromptValue Ext unit)
    (xs ys : list A) w :
  for_each g (xs ++ ys) w
  = bind (for_each g xs) (fun _ => for_each g ys) w.
Proof.
  revert w. induction xs as [|x xs IH]; intros w; simpl.
  - unfold bind, ret. reflexivity.
  - unfold bind in *.
    destruct (g x w) as [[e|[]] w1]; [reflexivity|].
    rewrite IH. reflexivity.
Qed.

Lemma with_open_w_ext {A : Type} (p : string)
    (body1 body2 : M PromptValue Ext A) w :
  (forall w0, body1 w0 = body2 w0) ->
  with_open_w p body1 w = with_open_w p body2 w.
Proof.
  intros Hb. unfold with_open_w, bind.
  destruct (open_w p w) as [[e|[]] w1]; [reflexivity|].
  now rewrite Hb.
Qed.

(** The body of the [with] block writes the pieces of
    [transcript_writes], one after the other. *)
Lemma transcript_body_writes (question : string) (docs : list Document)
    (answer : string) w :
  bind (write output_path ("Question:" +:+ nl +:+ question +:+ nl +:+ nl))
    (fun _ =>
  bind (write output_path (nl +:+ "--- Retrieved Context Documents ---" +:+ nl))
    (fun _ =>
  bind (for_each (fun '(i, doc) => write output_path (chunk_text i doc))
                 (enumerate docs))
    (fun _ =>
  bind (write output_path ("Generated Answer:" +:+ nl))
    (fun _ => write output_path answer)))) w
  = for_each (write output_path) (transcript_writes question docs answer) w.
Proof.
  unfold transcript_writes. simpl for_each.
  unfold bind at 1 5.
  destruct (write output_path _ w) as [[e|[]] w1]; [reflexivity|].
  unfold bind at 1 4.
  destruct (write output_path _ w1) as [[e|[]] w2]; [reflexivity|].
  rewrite for_each_app. unfold bind at 1 3.
  rewrite (for_each_ext _ (fun x => write output_path
                                      (chunk_text (fst x) (snd x))));
    [|intros [i doc] w0; reflexivity].
  rewrite (for_each_map (fun x : nat * Document => chunk_text (fst x) (snd x))
                        (write output_path)).
  destruct (for_each _ _ w2) as [[e|[]] w3]; [reflexivity|].
  simpl. unfold bind.
  destruct (write output_path _ w3) as [[e|[]] w4]; [reflexivity|].
  destruct (write output_path answer w4) as [[e|[]] w5]; reflexivity.
Qed.

(** [generate_step], run: the case tree of its outcomes. *)
Lemma generate_step_unfold (question : string) (docs : list Document)
    (llm : LanguageModel PromptValue Ext)
    (prompt : PromptTemplate PromptValue Ext) w :
  generate_step question docs llm prompt w =
  let t0 := trace w ++ generate_preamble question docs
                    ++ [EvPromptInvoke (prompt_args question docs)] in
  match prompt_invoke prompt (prompt_args question docs) (ext w) with
  | (inl d, x1) =>
      (inl (PromptTemplateError d), mkWorld x1 (files w) (io_clock w) t0)
  | (inr m, x1) =>
      match invoke llm m x1 with
      | (inl d, x2) =>
          (inl (ModelInvocationError d),
           mkWorld x2 (files w) (io_clock w) (t0 ++ [EvLlmInvoke m]))
      | (inr response, x2) =>
          match save_transcript question docs (content response)
                  (mkWorld x2 (files w) (io_clock w)
                     (t0 ++ [EvLlmInvoke m;
                             EvPrint (nl +:+ "Generated answer: "
                                      +:+ content response)]))
          with
          | (inl e, w4) => (inl e, w4)
          | (inr _, w4) =>
              (inr (content response),
               mkWorld (ext w4) (files w4) (io_clock w4)
                 (trace w4
                  ++ [EvLogInfo (nl +:+ "Output saved to " +:+ output_path)]))
          end
      end
  end.
Proof.
  unfold save_transcript.
  assert (Hblock := transcript_body_writes question docs).
  unfold generate_step, prompt_args, context_block, generate_preamble.
  destruct docs as [|doc docs];
    cbv [bind call log_info print emit ret] in *;
    cbn [ext files io_clock trace];
    (destruct (prompt_invoke prompt _ (ext w)) as [[d|m] x1];
     [norm_trace; reflexivity|]);
    cbn [ext files io_clock trace];
    (destruct (invoke llm m x1) as [[d|response] x2];
     [norm_trace; reflexivity|]);
    cbn [ext files io_clock trace];
    norm_trace;
    erewrite with_open_w_ext by (intros w0; apply Hblock);
    reflexivity.
Qed.

End GenerateRuns.

(** ** The transcript, read back *)

Lemma transcript_parts (question : string) (docs : list Document)
    (answer : string) :
  (exists rest,
      transcript question docs answer = ("Question:" +:+ nl +:+ question) +:+ rest)
  /\ (forall i doc, docs !! i = Some doc ->
        contains (transcript question docs answer) (labelled_passage (i + 1) doc))
  /\ (exists before,
         transcript question docs answer
         = before +:+ ("Generated Answer:" +:+ nl +:+ answer)).
Proof.
  unfold transcript. repeat split.
  - eexists. reflexivity.
  - intros i doc Hi. do 3 apply contains_app_l. apply contains_app_r.
    rewrite Nat.add_comm. now apply labelled_passages_lookup.
  - exists (("Question:" +:+ nl +:+ question) +:+ (nl +:+ nl)
            +:+ (nl +:+ "--- Retrieved Context Documents ---" +:+ nl)
            +:+ concat_all (labelled_passages 1 docs)).
    now rewrite !append_assoc.
Qed.

Lemma labelled_passage_heading (n : nat) (doc : Document) (s t : string) :
  section_label doc = s ->
  contains t (labelled_passage n doc) ->
  contains t ("Document " +:+ str_of_nat n +:+ " - Section: " +:+ s).
Proof.
  intros <- [pre [post ->]].
  exists pre, (":" +:+ nl +:+ page_content doc +:+ nl +:+ "---" +:+ nl +:+ post).
  unfold labelled_passage. now rewrite !append_assoc.
Qed.

Section SoundFiles.

Context {PromptValue Ext : Type} {rt : Runtime}.
Implicit Types (w : World PromptValue Ext).

(** Without faults the transcript block completes. *)
Lemma save_transcript_sound (question : string) (docs : list Document)
    (answer : string) w :
  (forall n op, io_fault n op = None) ->
  fst (save_transcript question docs answer w) = inr tt.
Proof.
  intros Hs. unfold save_transcript, with_open_w, bind, open_w, close, file_op.
  rewrite Hs.
  match goal with
  | |- context [for_each ?f ?ds ?w0] =>
      pose proof (for_each_write_sound output_path ds w0 Hs) as Hb;
      destruct (for_each f ds w0) as [rb w1]
  end.
  simpl in Hb. subst rb. rewrite Hs. reflexivity.
Qed.

End SoundFiles.

(** * The claims *)

Section AnalyzerClaims.

Context {PromptValue Ext : Type} {rt : Runtime}.
Implicit Types (w : World PromptValue Ext)
  (llm : LanguageModel PromptValue Ext).

(** [analyze_query_step], run: the case tree of its outcomes. *)
Lemma analyze_query_step_unfold (question : string) llm w :
  analyze_query_step question llm w =
  let t0 := trace w
            ++ [EvLogInfo ("Step: Query Analysis for question: '"
                           +:+ question +:+ "'");
                EvWithStructuredOutput] in
  match with_structured_output llm (ext w) with
  | (inl d, x1) =>
      (inl (ModelInvocationError d), mkWorld x1 (files w) (io_clock w) t0)
  | (inr structured_llm, x1) =>
      match structured_invoke structured_llm question x1 with
      | (inl d, x2) =>
          (inl (ModelInvocationError d),
           mkWorld x2 (files w) (io_clock w)
                   (t0 ++ [EvStructuredInvoke question]))
      | (inr query_structured, x2) =>
          (inr query_structured,
           mkWorld x2 (files w) (io_clock w)
                   (t0 ++ [EvStructuredInvoke question;
                           EvLogInfo ("Structured query: "
                                      +:+ str_search query_structured)]))
      end
  end.
Proof.
  cbv [analyze_query_step bind call log_info emit ret].
  cbn [ext files io_clock trace].
  destruct (with_structured_output llm (ext w)) as [[d|sm] x1];
    [norm_trace; reflexivity|].
  cbn [ext files io_clock trace].
  destruct (structured_invoke sm question x1) as [[d|s] x2];
    cbn [ext files io_clock trace]; norm_trace; reflexivity.
Qed.

(** C6: for every non-empty question [Q] and every model whose
    structured-output variant's [invoke] returns the fixed structured
    query [S0], [analyze_query_step Q llm] returns exactly [S0]. *)
Theorem analyze_query_step_returns_model_output
    (Q : string) llm (S0 : gmap string string) w :
  Q <> "" ->
  (forall x, exists sm x',
      with_structured_output llm x = (inr sm, x') /\
      forall q y, exists y', structured_invoke sm q y = (inr S0, y')) ->
  fst (analyze_query_step Q llm w) = inr S0.
Proof.
  intros _ Hllm. rewrite analyze_query_step_unfold.
  destruct (Hllm (ext w)) as (sm & x1 & -> & Hsm).
  destruct (Hsm Q x1) as [x2 ->]. reflexivity.
Qed.

(** C7, as the code has it: when [analyze_query_step] returns a
    structured query, that query is exactly what the [invoke] of the
    model's structured-output variant returned for the question; the step
    checks nothing, so the fields are non-empty exactly when the model
    made them so. *)
Theorem analyze_query_step_passes_model_output
    (Q : string) llm (S0 : gmap string string) w :
  fst (analyze_query_step Q llm w) = inr S0 ->
  exists sm x1 x2,
    with_structured_output llm (ext w) = (inr sm, x1) /\
    structured_invoke sm Q x1 = (inr S0, x2).
Proof.
  rewrite analyze_query_step_unfold.
  destruct (with_structured_output llm (ext w)) as [[d|sm] x1];
    [discriminate|].
  destruct (structured_invoke sm Q x1) as [[d|s] x2] eqn:Hs; [discriminate|].
  intros [= ->]. now exists sm, x1, x2.
Qed.

End AnalyzerClaims.

Section RetrieverClaims.

Context {PromptValue Ext : Type} {rt : Runtime}.
Implicit Types (w : World PromptValue Ext) (vs : VectorStore Ext)
  (sq : gmap string string).

(** [retrieve_step], run: the case tree of its outcomes. *)
Lemma retrieve_step_unfold sq vs w :
  retrieve_step sq vs w =
  let t0 := trace w
            ++ [EvLogInfo ("Step: retrieve for structured query: "
                           +:+ str_search sq)] in
  match sq !! "query" with
  | None => (inl (KeyError "query"), mkWorld (ext w) (files w) (io_clock w) t0)
  | Some query =>
      let t1 := t0 ++ [EvSimilaritySearch query 8] in
      match similarity_search vs query 8 (ext w) with
      | (inl d, x1) =>
          (inl (VectorStoreError d), mkWorld x1 (files w) (io_clock w) t1)
      | (inr retrieved_docs, x1) =>
          match sq !! "section" with
          | None =>
              (inl (KeyError "section"),
               mkWorld x1 (files w) (io_clock w) t1)
          | Some section =>
              (inr retrieved_docs,
               mkWorld x1 (files w) (io_clock w)
                 (t1 ++ [EvLogInfo
                           ("Retrieved "
                            +:+ str_of_nat (length retrieved_docs)
                            +:+ " documents for section '" +:+ section
                            +:+ "'.")]))
          end
      end
  end.
Proof.
  cbv [retrieve_step bind call log_info emit ret subscript raise].
  cbn [ext files io_clock trace].
  destruct (sq !! "query") as [query|]; [|reflexivity].
  cbn [ext files io_clock trace].
  destruct (similarity_search vs query 8 (ext w)) as [[d|docs] x1];
    [reflexivity|].
  destruct (sq !! "section") as [section|];
    cbn [ext files io_clock trace]; norm_trace; reflexivity.
Qed.

(** C1: for every structured query with a non-empty query text [q] and
    every vector store whose similarity search returns the passages [P],
    at most 8 of them, [retrieve_step] issues exactly one
    similarity-search request, for [q] with [k = 8], and returns exactly
    [P] in the same order, whatever the section field holds; when [P] is
    empty it returns the empty list and raises nothing. *)
Theorem retrieve_step_returns_search_result
    sq vs (q s : string) (P : list Document) w (x' : Ext) :
  sq !! "query" = Some q -> q <> "" ->
  sq !! "section" = Some s ->
  similarity_search vs q 8 (ext w) = (inr P, x') ->
  length P <= 8 ->
  (exists evs,
      retrieve_step sq vs w
      = (inr P, mkWorld x' (files w) (io_clock w) (trace w ++ evs)) /\
      search_requests evs = [(q, 8)]) /\
  (forall s' : string,
      fst (retrieve_step (<["section" := s']> sq) vs w) = inr P /\
      search_requests
        (drop (length (trace w))
              (trace (snd (retrieve_step (<["section" := s']> sq) vs w))))
      = [(q, 8)]) /\
  (P = [] -> fst (retrieve_step sq vs w) = inr []).
Proof.
  intros Hq _ Hs Hsearch _. repeat split.
  - rewrite retrieve_step_unfold, Hq. cbn zeta. rewrite Hsearch, Hs.
    eexists. norm_trace. split; reflexivity.
  - rewrite retrieve_step_unfold.
    rewrite lookup_insert_ne, Hq by discriminate. cbn zeta.
    rewrite Hsearch, lookup_insert_eq. reflexivity.
  - rewrite retrieve_step_unfold.
    rewrite lookup_insert_ne, Hq by discriminate. cbn zeta.
    rewrite Hsearch, lookup_insert_eq. cbn [snd trace]. norm_trace.
    rewrite drop_app_length. reflexivity.
  - intros ->. rewrite retrieve_step_unfold, Hq. cbn zeta.
    rewrite Hsearch, Hs. reflexivity.
Qed.

(** C10: [retrieve_step] needs both keys.  With ["query"] and
    ["section"] present it raises no [KeyError]; without ["query"] it
    raises [KeyError "query"].  Without ["section"] it never returns
    passages: when the query is there and the search has returned, it
    raises [KeyError "section"] where it builds its log line, after the
    similarity search (which asked for the query text alone), and the
    passages found are dropped. *)
Theorem retrieve_step_needs_section_key sq vs w :
  (forall q s : string,
      sq !! "query" = Some q -> sq !! "section" = Some s ->
      forall key, fst (retrieve_step sq vs w) <> inl (KeyError key)) /\
  (sq !! "query" = None ->
   fst (retrieve_step sq vs w) = inl (KeyError "query")) /\
  (sq !! "section" = None ->
   (forall P, fst (retrieve_step sq vs w) <> inr P) /\
   (forall (q : string) (P : list Document) (x' : Ext),
       sq !! "query" = Some q ->
       similarity_search vs q 8 (ext w) = (inr P, x') ->
       exists msg,
         retrieve_step sq vs w
         = (inl (KeyError "section"),
            mkWorld x' (files w) (io_clock w)
                    (trace w ++ [EvLogInfo msg; EvSimilaritySearch q 8])))).
Proof.
  split; [|split; [|intros Hs; split]].
  - intros q s Hq Hs key. rewrite retrieve_step_unfold, Hq. cbn zeta.
    destruct (similarity_search vs q 8 (ext w)) as [[d|docs] x1];
      [discriminate|].
    rewrite Hs. discriminate.
  - intros Hq. rewrite retrieve_step_unfold, Hq. reflexivity.
  - intros P. rewrite retrieve_step_unfold.
    destruct (sq !! "query") as [q|]; [|discriminate]. cbn zeta.
    destruct (similarity_search vs q 8 (ext w)) as [[d|docs] x1];
      [discriminate|].
    rewrite Hs. discriminate.
  - intros q P x' Hq Hsearch. rewrite retrieve_step_unfold, Hq. cbn zeta.
    rewrite Hsearch, Hs. eexists. norm_trace. reflexivity.
Qed.

End RetrieverClaims.

Section GeneratorClaims.

Context {PromptValue Ext : Type} {rt : Runtime}.
Implicit Types (w : World PromptValue Ext)
  (llm : LanguageModel PromptValue Ext)
  (prompt : PromptTemplate PromptValue Ext).

Lemma preamble_requests (question : string) (docs : list Document) :
  prompt_requests (generate_preamble (PromptValue := PromptValue)
                     question docs) = [] /\
  llm_requests (generate_preamble (PromptValue := PromptValue)
                  question docs) = [] /\
  file_events (generate_preamble (PromptValue := PromptValue)
                 question docs) = [] /\
  open_requests (generate_preamble (PromptValue := PromptValue)
                   question docs) = [].
Proof. destruct docs; repeat split. Qed.

Lemma prompt_requests_app (t1 t2 : list (Event PromptValue)) :
  prompt_requests (t1 ++ t2) = prompt_requests t1 ++ prompt_requests t2.
Proof. apply omap_app. Qed.

Lemma llm_requests_app (t1 t2 : list (Event PromptValue)) :
  llm_requests (t1 ++ t2) = llm_requests t1 ++ llm_requests t2.
Proof. apply omap_app. Qed.

Lemma prompt_requests_cons (args : gmap string string)
    (t : list (Event PromptValue)) :
  prompt_requests (EvPromptInvoke args :: t) = args :: prompt_requests t.
Proof. reflexivity. Qed.

Lemma llm_requests_cons (m : PromptValue) (t : list (Event PromptValue)) :
  llm_requests (EvLlmInvoke m :: t) = m :: llm_requests t.
Proof. reflexivity. Qed.

Lemma llm_requests_skip (args : gmap string string)
    (t : list (Event PromptValue)) :
  llm_requests (EvPromptInvoke args :: t) = llm_requests t.
Proof. reflexivity. Qed.

Lemma open_requests_app (t1 t2 : list (Event PromptValue)) :
  open_requests (t1 ++ t2) = open_requests t1 ++ open_requests t2.
Proof. apply List.filter_app. Qed.

(** What a run of [generate_step] adds to the trace: the preamble, the
    one prompt request, then (if the template returned [m]) the one
    model request for [m], then file events and log lines only. *)
Lemma generate_step_trace (question : string) (docs : list Document)
    llm prompt w :
  exists rest,
    trace (snd (generate_step question docs llm prompt w))
    = trace w ++ generate_preamble question docs
              ++ EvPromptInvoke (prompt_args question docs) :: rest /\
    prompt_requests rest = [] /\
    length (llm_requests rest) <= 1 /\
    length (open_requests rest) <= 1 /\
    (forall m x1,
        prompt_invoke prompt (prompt_args question docs) (ext w)
        = (inr m, x1) ->
        exists rest', rest = EvLlmInvoke m :: rest' /\
                      llm_requests rest' = [] /\
                      (file_events rest' <> [] ->
                       exists response x2,
                         invoke llm m x1 = (inr response, x2))).
Proof.
  rewrite generate_step_unfold. cbn zeta.
  destruct (prompt_invoke prompt _ (ext w)) as [[d|m] x1].
  { exists []. cbn [snd trace]. repeat split; simpl; try lia.
    intros m x1' [=]. }
  destruct (invoke llm m x1) as [[d|response] x2] eqn:Hinv.
  { exists [EvLlmInvoke m]. cbn [snd trace]. norm_trace.
    repeat split; simpl; try lia.
    intros m' x1' [= <- <-]. exists []. repeat split. intros []. reflexivity. }
  destruct (save_transcript _ _ _ _) as [r4 w4] eqn:Hsave.
  apply save_transcript_any in Hsave as (_ & (evs & Ht & Hfe & Hop) & _).
  cbn [trace] in Ht.
  destruct (file_events_requests evs Hfe) as (_ & Hp & Hl & _ & _).
  assert (Hcase :
    exists tail, trace (snd (match r4 with
                             | inl e => (inl e, w4)
                             | inr _ =>
                                 (inr (content response),
                                  mkWorld (ext w4) (files w4) (io_clock w4)
                                    (trace w4 ++ [EvLogInfo
                                       (nl +:+ "Output saved to "
                                        +:+ output_path)]))
                             end : (exn + string) * World PromptValue Ext))
                 = trace w4 ++ tail /\
                 prompt_requests tail = [] /\ llm_requests tail = [] /\
                 open_requests tail = []).
  { destruct r4 as [e|[]]; cbn [snd trace].
    - exists []. now rewrite app_nil_r.
    - eexists. split; [reflexivity|]. repeat split. }
  destruct Hcase as (tail & Htail & Hp' & Hl' & Ho').
  exists ([EvLlmInvoke m;
           EvPrint (nl +:+ "Generated answer: " +:+ content response)]
          ++ evs ++ tail).
  split; [rewrite Htail, Ht; norm_trace; reflexivity|].
  rewrite !prompt_requests_app, !llm_requests_app, !open_requests_app,
    Hp, Hl, Hp', Hl', Ho'.
  split; [reflexivity|]. split; [simpl; lia|].
  split; [simpl; rewrite app_nil_r; exact Hop|].
  intros m' x1' [= <- <-].
  exists ([EvPrint (nl +:+ "Generated answer: " +:+ content response)]
          ++ evs ++ tail).
  split; [reflexivity|].
  rewrite !llm_requests_app, Hl, Hl'. split; [reflexivity|].
  intros _. now exists response, x2.
Qed.

(** C2: for every question and every passage list, [generate_step]
    hands the prompt template, once, the question and a context that is
    the passages' contents joined by a blank line; when there are no
    passages the context is the placeholder ["No specific context
    found."], and the model is still invoked on the formatted prompt. *)
Theorem generate_step_context (question : string) (docs : list Document)
    llm prompt w :
  exists evs,
    trace (snd (generate_step question docs llm prompt w)) = trace w ++ evs /\
    (exists args,
        prompt_requests evs = [args] /\
        args !! "question" = Some question /\
        (docs <> [] ->
         args !! "context"
         = Some (join (nl +:+ nl) (map page_content docs))) /\
        (docs = [] ->
         args !! "context" = Some "No specific context found.") /\
        (forall m x1,
            prompt_invoke prompt args (ext w) = (inr m, x1) ->
            llm_requests evs = [m])).
Proof.
  destruct (generate_step_trace question docs llm prompt w)
    as (rest & Ht & Hp & _ & _ & Hm).
  destruct (preamble_requests question docs) as (Hpp & Hpl & _ & _).
  eexists. split; [exact Ht|].
  exists (prompt_args question docs).
  split; [|split; [|split; [|split]]].
  - rewrite prompt_requests_app, Hpp, prompt_requests_cons, Hp.
    reflexivity.
  - unfold prompt_args. now rewrite lookup_insert_eq.
  - intros Hne. unfold prompt_args.
    rewrite lookup_insert_ne, lookup_insert_eq by discriminate.
    destruct docs; [contradiction|reflexivity].
  - intros ->. unfold prompt_args.
    now rewrite lookup_insert_ne, lookup_insert_eq by discriminate.
  - intros m x1 Hpi. destruct (Hm m x1 Hpi) as (rest' & -> & Hl & _).
    rewrite llm_requests_app, Hpl, llm_requests_skip, llm_requests_cons, Hl.
    reflexivity.
Qed.

(** C3: after every run of [generate_step] that returns an answer, the
    file at the fixed transcript path holds, whatever it held before,
    exactly the transcript of the run and nothing else: a text that
    starts with ["Question:\n"] and the question, has for the [i]-th
    passage the entry numbered [i+1] and labelled with the passage's
    section metadata (["N/A"] without one), and ends with
    ["Generated Answer:\n"] and the answer. *)
Theorem generate_step_writes_transcript
    (question : string) (docs : list Document) llm prompt w
    (answer : string) :
  fst (generate_step question docs llm prompt w) = inr answer ->
  files (snd (generate_step question docs llm prompt w))
  = <[output_path := transcript question docs answer]> (files w) /\
  (exists rest,
      transcript question docs answer
      = ("Question:" +:+ nl +:+ question) +:+ rest) /\
  (forall i doc,
      docs !! i = Some doc ->
      contains (transcript question docs answer)
        ("Document " +:+ str_of_nat (i + 1) +:+ " - Section: "
         +:+ match metadata doc !! "section" with
             | Some s => s
             | None => "N/A"
             end
         +:+ ":" +:+ nl +:+ page_content doc +:+ nl +:+ "---" +:+ nl)) /\
  (exists before,
      transcript question docs answer
      = before +:+ ("Generated Answer:" +:+ nl +:+ answer)).
Proof.
  rewrite generate_step_unfold. cbn zeta.
  destruct (prompt_invoke prompt _ (ext w)) as [[d|m] x1]; [discriminate|].
  destruct (invoke llm m x1) as [[d|response] x2]; [discriminate|].
  destruct (save_transcript _ _ _ _) as [[e|[]] w4] eqn:Hsave;
    [discriminate|].
  intros [= <-]. apply save_transcript_ok in Hsave as [Hfiles _].
  cbn [snd files] in *.
  split; [exact Hfiles|]. apply transcript_parts.
Qed.

(** C5: [generate_step] returns the [content] field of the model's
    response as it is: whenever it returns, it returns that text; it
    does return it when no file operation fails, and otherwise raises
    the file system's error. *)
Theorem generate_step_returns_content
    (question : string) (docs : list Document) llm prompt w
    (m : PromptValue) (x1 x2 : Ext) (response : Response) :
  prompt_invoke prompt (prompt_args question docs) (ext w) = (inr m, x1) ->
  invoke llm m x1 = (inr response, x2) ->
  (forall a, fst (generate_step question docs llm prompt w) = inr a ->
             a = content response) /\
  ((forall n op, io_fault n op = None) ->
   fst (generate_step question docs llm prompt w) = inr (content response)) /\
  (forall e, fst (generate_step question docs llm prompt w) = inl e ->
             exists detail, e = IOError detail).
Proof.
  intros Hp Hl. rewrite generate_step_unfold. cbn zeta. rewrite Hp, Hl.
  repeat split.
  - intros a. destruct (save_transcript _ _ _ _) as [[e|[]] w4];
      [discriminate|]. now intros [= <-].
  - intros Hs.
    match goal with
    | |- context [save_transcript ?q ?ds ?a ?w0] =>
        pose proof (save_transcript_sound q ds a w0 Hs) as Hok;
        destruct (save_transcript q ds a w0) as [r4 w4]
    end.
    simpl in Hok. subst r4. reflexivity.
  - intros e. destruct (save_transcript _ _ _ _) as [[e'|[]] w4] eqn:Hsave;
      [|discriminate].
    intros [= <-].
    apply save_transcript_any in Hsave as (_ & _ & He).
    destruct (He e' eq_refl) as (_ & _ & detail & _ & _ & ->).
    now exists detail.
Qed.

End GeneratorClaims.

Section PropagationClaims.

Context {PromptValue Ext : Type} {rt : Runtime}.
Implicit Types (w : World PromptValue Ext)
  (llm : LanguageModel PromptValue Ext)
  (prompt : PromptTemplate PromptValue Ext)
  (vs : VectorStore Ext).

Lemma file_events_app (t1 t2 : list (Event PromptValue)) :
  file_events (t1 ++ t2) = file_events t1 ++ file_events t2.
Proof. apply List.filter_app. Qed.

(** C9: in [generate_step] the model is invoked before the transcript
    file is opened.  When the model's invocation raises, the step raises
    that error with the files as they were: no file operation was
    attempted and none is in the trace.  In every run, a file event in
    the trace comes after the event of the model's invocation. *)
Theorem generate_step_model_before_file
    (question : string) (docs : list Document) llm prompt w :
  (forall (m : PromptValue) (x1 x2 : Ext) (d : string),
      prompt_invoke prompt (prompt_args question docs) (ext w)
      = (inr m, x1) ->
      invoke llm m x1 = (inl d, x2) ->
      fst (generate_step question docs llm prompt w)
      = inl (ModelInvocationError d) /\
      files (snd (generate_step question docs llm prompt w)) = files w /\
      io_clock (snd (generate_step question docs llm prompt w))
      = io_clock w /\
      file_events
        (drop (length (trace w))
              (trace (snd (generate_step question docs llm prompt w))))
      = []) /\
  (forall evs,
      trace (snd (generate_step question docs llm prompt w))
      = trace w ++ evs ->
      file_events evs <> [] ->
      exists pre m post,
        evs = pre ++ EvLlmInvoke m :: post /\ file_events pre = []).
Proof.
  destruct (preamble_requests (PromptValue := PromptValue) question docs)
    as (_ & _ & Hpf & _).
  split.
  - intros m x1 x2 d Hp Hl. rewrite generate_step_unfold. cbn zeta.
    rewrite Hp, Hl. cbn [fst snd files io_clock trace].
    repeat split. norm_trace. rewrite drop_app_length.
    rewrite file_events_app, Hpf. reflexivity.
  - intros evs. rewrite generate_step_unfold. cbn zeta.
    destruct (prompt_invoke prompt _ (ext w)) as [[d|m] x1].
    { cbn [snd trace]. intros <-%app_inv_head.
      rewrite file_events_app, Hpf. intros []. reflexivity. }
    destruct (invoke llm m x1) as [[d|response] x2].
    { cbn [snd trace]. norm_trace. intros <-%app_inv_head.
      rewrite file_events_app, Hpf. intros []. reflexivity. }
    destruct (save_transcript _ _ _ _) as [r4 w4] eqn:Hsave.
    apply save_transcript_any in Hsave as (_ & (fevs & Ht & _) & _).
    cbn [trace] in Ht. intros Hevs _.
    exists (generate_preamble question docs
            ++ [EvPromptInvoke (prompt_args question docs)]), m.
    destruct r4 as [e|[]]; cbn [snd trace] in Hevs; rewrite Ht in Hevs;
      revert Hevs; norm_trace; intros <-%app_inv_head;
      (eexists; split; [norm_trace; reflexivity|]);
      rewrite file_events_app, Hpf; reflexivity.
Qed.

(** C8: errors propagate uncaught.  In [analyze_query_step] and in
    [generate_step] a failing model call ends the step with the model's
    error; in [generate_step] a failing operation on the transcript file
    ends the step with an I/O error, and every error the step raises
    after the model has answered is the error of a fault of the file
    system; in [retrieve_step] a failing search ends the step with the
    store's error; no step returns a value in these cases.  No step
    retries: in every run each collaborator is called at most once and
    the file is opened at most once. *)
Theorem errors_propagate_uncaught :
  (forall (Q : string) llm w (d : string) (x1 : Ext),
      with_structured_output llm (ext w) = (inl d, x1) ->
      fst (analyze_query_step Q llm w) = inl (ModelInvocationError d)) /\
  (forall (Q : string) llm w sm (d : string) (x1 x2 : Ext),
      with_structured_output llm (ext w) = (inr sm, x1) ->
      structured_invoke sm Q x1 = (inl d, x2) ->
      fst (analyze_query_step Q llm w) = inl (ModelInvocationError d)) /\
  (forall (question : string) (docs : list Document) llm prompt w
          (m : PromptValue) (d : string) (x1 x2 : Ext),
      prompt_invoke prompt (prompt_args question docs) (ext w)
      = (inr m, x1) ->
      invoke llm m x1 = (inl d, x2) ->
      fst (generate_step question docs llm prompt w)
      = inl (ModelInvocationError d)) /\
  (forall (question : string) (docs : list Document) llm prompt w
          (m : PromptValue) (response : Response) (x1 x2 : Ext),
      prompt_invoke prompt (prompt_args question docs) (ext w)
      = (inr m, x1) ->
      invoke llm m x1 = (inr response, x2) ->
      (forall (k : nat) (d : string),
          k < length docs + 6 ->
          (forall op, io_fault (io_clock w + k) op = Some d) ->
          exists d', fst (generate_step question docs llm prompt w)
                     = inl (IOError d')) /\
      (forall e,
          fst (generate_step question docs llm prompt w) = inl e ->
          exists j op d,
            j < length docs + 6 /\
            io_fault (io_clock w + j) op = Some d /\ e = IOError d)) /\
  (forall (sq : gmap string string) vs w (q d : string) (x1 : Ext),
      sq !! "query" = Some q ->
      similarity_search vs q 8 (ext w) = (inl d, x1) ->
      fst (retrieve_step sq vs w) = inl (VectorStoreError d)) /\
  (forall (Q : string) llm w,
      exists evs,
        trace (snd (analyze_query_step Q llm w)) = trace w ++ evs /\
        length (structured_output_requests evs) <= 1 /\
        length (structured_requests evs) <= 1) /\
  (forall (sq : gmap string string) vs w,
      exists evs,
        trace (snd (retrieve_step sq vs w)) = trace w ++ evs /\
        length (search_requests evs) <= 1) /\
  (forall (question : string) (docs : list Document) llm prompt w,
      exists evs,
        trace (snd (generate_step question docs llm prompt w))
        = trace w ++ evs /\
        length (prompt_requests evs) <= 1 /\
        length (llm_requests evs) <= 1 /\
        length (open_requests evs) <= 1).
Proof.
  split; [|split; [|split; [|split; [|split; [|split; [|split]]]]]].
  - intros Q llm w d x1 H. rewrite analyze_query_step_unfold. cbn zeta.
    now rewrite H.
  - intros Q llm w sm d x1 x2 H1 H2. rewrite analyze_query_step_unfold.
    cbn zeta. now rewrite H1, H2.
  - intros question docs llm prompt w m d x1 x2 Hp Hl.
    rewrite generate_step_unfold. cbn zeta. now rewrite Hp, Hl.
  - intros question docs llm prompt w m response x1 x2 Hp Hl.
    rewrite generate_step_unfold. cbn zeta. rewrite Hp, Hl.
    destruct (save_transcript _ _ _ _) as [[e|[]] w4] eqn:Hsave.
    + apply save_transcript_any in Hsave as (_ & _ & He).
      destruct (He e eq_refl) as (j & op & d0 & Hj & Hop & ->).
      split.
      * intros k d _ _. now exists d0.
      * intros e [= <-]. now exists j, op, d0.
    + apply save_transcript_ok in Hsave as [_ Hnone].
      cbn [io_clock] in Hnone. split; [|discriminate].
      intros k d Hk Hfault. destruct (Hnone k Hk) as [op Hop].
      rewrite Hfault in Hop. discriminate.
  - intros sq vs w q d x1 Hq Hsearch. rewrite retrieve_step_unfold, Hq.
    cbn zeta. now rewrite Hsearch.
  - intros Q llm w. rewrite analyze_query_step_unfold. cbn zeta.
    destruct (with_structured_output llm (ext w)) as [[d|sm] x1].
    { eexists. split; [reflexivity|]. simpl. lia. }
    destruct (structured_invoke sm Q x1) as [[d|s] x2];
      (eexists; split; [cbn [snd trace]; norm_trace; reflexivity|]);
      simpl; lia.
  - intros sq vs w. rewrite retrieve_step_unfold. cbn zeta.
    destruct (sq !! "query") as [q|].
    2:{ eexists. split; [reflexivity|]. simpl. lia. }
    destruct (similarity_search vs q 8 (ext w)) as [[d|docs] x1].
    { eexists. split; [cbn [snd trace]; norm_trace; reflexivity|].
      simpl. lia. }
    destruct (sq !! "section") as [s|];
      (eexists; split; [cbn [snd trace]; norm_trace; reflexivity|]);
      simpl; lia.
  - intros question docs llm prompt w.
    destruct (generate_step_trace question docs llm prompt w)
      as (rest & Ht & Hp & Hl & Ho & _).
    destruct (preamble_requests (PromptValue := PromptValue) question docs)
      as (Hpp & Hpl & _ & Hpo).
    eexists. split; [exact Ht|].
    rewrite prompt_requests_app, llm_requests_app, open_requests_app,
      Hpp, Hpl, Hpo, prompt_requests_cons, llm_requests_skip, Hp.
    repeat split; simpl; try lia; exact Ho.
Qed.

End PropagationClaims.

Section ScenarioClaim.

Context {PromptValue Ext : Type} {rt : Runtime}.
Implicit Types (w : World PromptValue Ext)
  (llm : LanguageModel PromptValue Ext)
  (prompt : PromptTemplate PromptValue Ext)
  (vs : VectorStore Ext).

(** C4, as the code has it: in the end-to-end scenario where the
    Analyzer returns [{query: "X", section: "intro"}] and the Retriever
    returns the two passages ["A"] and ["B"], each carrying the section
    metadata ["intro"], the Generator hands the template the context
    ["A\n\nB"], returns the model's answer, and the transcript file
    holds both passages labelled ["Document 1 - Section: intro"] and
    ["Document 2 - Section: intro"] together with the answer. *)
Theorem end_to_end_scenario
    llm vs prompt w (sm : StructuredModel Ext) (sq : gmap string string)
    (dA dB : Document) (m : PromptValue) (x1 x2 x3 x4 x5 : Ext) :
  (forall n op, io_fault n op = None) ->
  with_structured_output llm (ext w) = (inr sm, x1) ->
  structured_invoke sm "What is X?" x1 = (inr sq, x2) ->
  sq !! "query" = Some "X" ->
  sq !! "section" = Some "intro" ->
  similarity_search vs "X" 8 x2 = (inr [dA; dB], x3) ->
  page_content dA = "A" ->
  page_content dB = "B" ->
  metadata dA !! "section" = Some "intro" ->
  metadata dB !! "section" = Some "intro" ->
  prompt_invoke prompt
    (<["question" := "What is X?"]>
       (<["context" := "A" +:+ nl +:+ nl +:+ "B"]> ∅)) x3
  = (inr m, x4) ->
  invoke llm m x4 = (inr (mkResponse "X is ..."), x5) ->
  fst (pipeline "What is X?" llm vs prompt w) = inr "X is ..." /\
  (exists evs,
      trace (snd (pipeline "What is X?" llm vs prompt w)) = trace w ++ evs /\
      prompt_requests evs
      = [<["question" := "What is X?"]>
           (<["context" := "A" +:+ nl +:+ nl +:+ "B"]> ∅)]) /\
  (exists t,
      files (snd (pipeline "What is X?" llm vs prompt w)) !! output_path
      = Some t /\
      contains t "Document 1 - Section: intro" /\
      contains t "Document 2 - Section: intro" /\
      contains t "X is ...").
Proof.
  intros Hs Hwso Hsm Hq Hsec Hsearch HA HB HmA HmB Hp Hl.
  destruct dA as [cA mA], dB as [cB mB]. simpl in HA, HB, HmA, HmB.
  subst cA cB.
  unfold pipeline, bind.
  rewrite analyze_query_step_unfold. cbn zeta. rewrite Hwso, Hsm.
  rewrite retrieve_step_unfold, Hq. cbn zeta.
  cbn [ext files io_clock trace]. rewrite Hsearch, Hsec.
  rewrite generate_step_unfold. cbn zeta. cbn [ext files io_clock trace].
  change (prompt_args "What is X?" [mkDocument "A" mA; mkDocument "B" mB])
    with (<["question" := "What is X?"]>
            (<["context" := "A" +:+ nl +:+ nl +:+ "B"]>
               (∅ : gmap string string))).
  rewrite Hp, Hl. cbn [content].
  match goal with
  | |- context [save_transcript ?q ?ds ?a ?w0] =>
      pose proof (save_transcript_sound q ds a w0 Hs) as Hok;
      destruct (save_transcript q ds a w0) as [r4 w4] eqn:Hsave
  end.
  simpl in Hok. subst r4.
  pose proof Hsave as Hany.
  apply save_transcript_any in Hany as (_ & (fevs & Ht & Hfe & _) & _).
  apply save_transcript_ok in Hsave as [Hfiles _].
  cbn [fst snd ext files io_clock trace] in *.
  split; [reflexivity|]. split.
  - eexists. rewrite Ht. norm_trace. split; [reflexivity|].
    destruct (file_events_requests fevs Hfe) as (_ & Hpr & _).
    change (generate_preamble "What is X?"
              [mkDocument "A" mA; mkDocument "B" mB])
      with [@EvLogInfo PromptValue
              ("Step: generate for question: '" +:+ "What is X?" +:+ "'")].
    cbn [app].
    repeat match goal with
           | |- context [prompt_requests (?e :: ?t)] =>
               lazymatch e with
               | EvPromptInvoke _ => fail
               | _ => change (prompt_requests (e :: t))
                        with (prompt_requests t)
               end
           end.
    rewrite prompt_requests_cons.
    repeat match goal with
           | |- context [prompt_requests (?e :: ?t)] =>
               change (prompt_requests (e :: t)) with (prompt_requests t)
           end.
    rewrite prompt_requests_app, Hpr. reflexivity.
  - eexists. rewrite Hfiles, lookup_insert_eq. split; [reflexivity|].
    destruct (transcript_parts "What is X?"
                [mkDocument "A" mA; mkDocument "B" mB] "X is ...")
      as (_ & Hdocs & before & Hend).
    repeat split.
    + apply (labelled_passage_heading 1 (mkDocument "A" mA) "intro").
      * unfold section_label. simpl. now rewrite HmA.
      * now apply (Hdocs 0).
    + apply (labelled_passage_heading 2 (mkDocument "B" mB) "intro").
      * unfold section_label. simpl. now rewrite HmB.
      * now apply (Hdocs 1).
    + rewrite Hend. apply contains_app_l.
      exists ("Generated Answer:" +:+ nl), "".
      now rewrite append_empty_r.
Qed.

End ScenarioClaim.

(** * The claims at work on the stub collaborators *)

Import Stubs.

Lemma analyze_query_step_returns_model_output_witness :
  fst (analyze_query_step (rt := sound_runtime) "What is X?"
         (fixed_llm "X is ..." search_X) (start ∅))
  = inr search_X.
Proof.
  apply analyze_query_step_returns_model_output.
  - discriminate.
  - intros x. eexists _, _. split; [reflexivity|].
    intros q y. eexists. reflexivity.
Defined.

(** C7 as stated fails: a model that emits a structured query with both
    fields empty gets it back from the Analyzer, unchecked. *)
Lemma analyzer_accepts_empty_fields :
  fst (analyze_query_step (rt := sound_runtime) "What is X?"
         (fixed_llm "X is ..." blank_search) (start ∅))
  = inr blank_search
  /\ ~ fields_non_empty blank_search.
Proof.
  split; [reflexivity|].
  intros (q & sec & Hq & Hne & _). vm_compute in Hq.
  injection Hq as <-. now apply Hne.
Qed.

Lemma analyze_query_step_passes_model_output_witness :
  exists sm x1 x2,
    with_structured_output (fixed_llm "X is ..." blank_search)
      (ext (start ∅)) = (inr sm, x1) /\
    structured_invoke sm "What is X?" x1 = (inr blank_search, x2).
Proof.
  apply (analyze_query_step_passes_model_output (rt := sound_runtime)
           "What is X?" (fixed_llm "X is ..." blank_search) blank_search
           (start ∅)).
  reflexivity.
Defined.

Lemma retrieve_step_returns_search_result_witness :
  fst (retrieve_step (rt := sound_runtime) (PromptValue := string) search_X
         (fixed_store [passage_A; passage_B]) (start ∅))
  = inr [passage_A; passage_B]
  /\ forall s' : string,
      fst (retrieve_step (rt := sound_runtime) (PromptValue := string)
             (<["section" := s']> search_X)
             (fixed_store [passage_A; passage_B]) (start ∅))
      = inr [passage_A; passage_B].
Proof.
  destruct (retrieve_step_returns_search_result
              (rt := sound_runtime) (PromptValue := string) search_X
              (fixed_store [passage_A; passage_B]) "X" "intro"
              [passage_A; passage_B] (start ∅) 1)
    as ((evs & Hrun & _) & Hsec & _).
  - reflexivity.
  - discriminate.
  - reflexivity.
  - reflexivity.
  - simpl. lia.
  - split; [now rewrite Hrun|]. intros s'. apply Hsec.
Defined.

Lemma retrieve_step_needs_section_key_witness :
  fst (retrieve_step (rt := sound_runtime) (PromptValue := string) query_only
         (fixed_store [passage_A; passage_B]) (start ∅))
  = inl (KeyError "section").
Proof.
  destruct (retrieve_step_needs_section_key
              (rt := sound_runtime) (PromptValue := string) query_only
              (fixed_store [passage_A; passage_B]) (start ∅))
    as (_ & _ & Hmissing).
  destruct (Hmissing eq_refl) as [_ Hraise].
  destruct (Hraise "X" [passage_A; passage_B] 1 eq_refl eq_refl)
    as [msg Hrun].
  now rewrite Hrun.
Defined.

Lemma generate_step_context_witness :
  exists evs args,
    trace (snd (generate_step (rt := sound_runtime) "What is X?" []
                  (fixed_llm "X is ..." search_X) plain_prompt (start ∅)))
    = [] ++ evs
    /\ prompt_requests evs = [args]
    /\ args !! "context" = Some "No specific context found."
    /\ (forall m x1,
           prompt_invoke plain_prompt args 0 = (inr m, x1) ->
           llm_requests evs = [m]).
Proof.
  destruct (generate_step_context (rt := sound_runtime) "What is X?" []
              (fixed_llm "X is ..." search_X) plain_prompt (start ∅))
    as (evs & Ht & args & Hreq & _ & _ & Hempty & Hmodel).
  exists evs, args. repeat split; [exact Ht|exact Hreq|now apply Hempty|].
  exact Hmodel.
Defined.

Lemma generate_step_writes_transcript_witness :
  files (snd (generate_step (rt := sound_runtime) "What is X?"
                [passage_A; passage_B] (fixed_llm "X is ..." search_X)
                plain_prompt (start {[ output_path := "stale" ]})))
  = <[output_path :=
        transcript "What is X?" [passage_A; passage_B] "X is ..."]>
      {[ output_path := "stale" ]}
  /\ contains (transcript "What is X?" [passage_A; passage_B] "X is ...")
       ("Document 2 - Section: intro:" +:+ nl +:+ "B" +:+ nl +:+ "---" +:+ nl).
Proof.
  destruct (generate_step_writes_transcript (rt := sound_runtime)
              "What is X?" [passage_A; passage_B]
              (fixed_llm "X is ..." search_X) plain_prompt
              (start {[ output_path := "stale" ]}) "X is ...")
    as (Hfiles & _ & Hdocs & _).
  - vm_compute. reflexivity.
  - split; [exact Hfiles|]. apply (Hdocs 1 passage_B). reflexivity.
Defined.

Lemma generate_step_returns_content_witness :
  fst (generate_step (rt := sound_runtime) "What is X?" [passage_A; passage_B]
         (fixed_llm "X is ..." search_X) plain_prompt (start ∅))
  = inr "X is ...".
Proof.
  destruct (generate_step_returns_content (rt := sound_runtime)
              "What is X?" [passage_A; passage_B]
              (fixed_llm "X is ..." search_X) plain_prompt (start ∅)
              _ _ _ _ eq_refl eq_refl)
    as (_ & Hsound & _).
  apply Hsound. intros n op. reflexivity.
Defined.

Lemma generate_step_model_before_file_witness :
  fst (generate_step (rt := sound_runtime) "What is X?" [passage_A; passage_B]
         broken_llm plain_prompt (start {[ output_path := "stale" ]}))
  = inl (ModelInvocationError "timeout")
  /\ files (snd (generate_step (rt := sound_runtime) "What is X?"
                   [passage_A; passage_B] broken_llm plain_prompt
                   (start {[ output_path := "stale" ]})))
     = {[ output_path := "stale" ]}.
Proof.
  destruct (generate_step_model_before_file (rt := sound_runtime)
              "What is X?" [passage_A; passage_B] broken_llm plain_prompt
              (start {[ output_path := "stale" ]}))
    as [Hraise _].
  destruct (Hraise _ _ _ _ eq_refl eq_refl) as (Hr & Hf & _).
  split; [exact Hr|exact Hf].
Defined.

Lemma errors_propagate_uncaught_witness :
  fst (analyze_query_step (rt := sound_runtime) "What is X?"
         (flaky_llm "X is ..." search_X) (start ∅))
  = inl (ModelInvocationError "overloaded")
  /\ fst (generate_step (rt := sound_runtime) "What is X?" [passage_A]
            (flaky_llm "X is ..." search_X) plain_prompt (start ∅))
     = inl (ModelInvocationError "overloaded")
  /\ exists d',
      fst (generate_step (rt := faulty_runtime 3) "What is X?" [passage_A]
             (fixed_llm "X is ..." search_X) plain_prompt (start ∅))
      = inl (IOError d').
Proof.
  destruct (errors_propagate_uncaught
              (PromptValue := string) (Ext := nat) (rt := sound_runtime))
    as (_ & Hanalyze & Hmodel & _).
  destruct (errors_propagate_uncaught
              (PromptValue := string) (Ext := nat) (rt := faulty_runtime 3))
    as (_ & _ & _ & Hfile & _).
  split; [|split].
  - apply (Hanalyze "What is X?" (flaky_llm "X is ..." search_X) (start ∅)
                    _ "overloaded" _ _ eq_refl eq_refl).
  - apply (Hmodel "What is X?" [passage_A] (flaky_llm "X is ..." search_X)
                  plain_prompt (start ∅) _ "overloaded" _ _ eq_refl eq_refl).
  - destruct (Hfile "What is X?" [passage_A] (fixed_llm "X is ..." search_X)
                    plain_prompt (start ∅) _ _ _ _ eq_refl eq_refl)
      as [Hraise _].
    apply (Hraise 3 "disk full"); [simpl; lia|].
    intros op. reflexivity.
Defined.

(** C4 as stated fails: the labels are the passages' own metadata, not
    the Analyzer's section; passages ["A"] and ["B"] without section
    metadata are labelled ["N/A"]. *)
Lemma scenario_without_section_metadata :
  fst (pipeline (rt := sound_runtime) "What is X?"
         (fixed_llm "X is ..." search_X) (fixed_store [bare_A; bare_B])
         plain_prompt (start ∅))
  = inr "X is ..."
  /\ exists t,
      files (snd (pipeline (rt := sound_runtime) "What is X?"
                    (fixed_llm "X is ..." search_X)
                    (fixed_store [bare_A; bare_B]) plain_prompt (start ∅)))
      !! output_path = Some t
      /\ ~ contains t "Document 1 - Section: intro"
      /\ contains t "Document 1 - Section: N/A".
Proof.
  split; [vm_compute; reflexivity|].
  eexists. split; [vm_compute; reflexivity|]. split.
  - intros H%containsb_spec. vm_compute in H. discriminate.
  - apply containsb_spec. vm_compute. reflexivity.
Qed.

Lemma end_to_end_scenario_witness :
  fst (pipeline (rt := sound_runtime) "What is X?"
         (fixed_llm "X is ..." search_X) (fixed_store [passage_A; passage_B])
         plain_prompt (start ∅))
  = inr "X is ..."
  /\ exists t,
      files (snd (pipeline (rt := sound_runtime) "What is X?"
                    (fixed_llm "X is ..." search_X)
                    (fixed_store [passage_A; passage_B]) plain_prompt
                    (start ∅)))
      !! output_path = Some t
      /\ contains t "Document 1 - Section: intro"
      /\ contains t "Document 2 - Section: intro"
      /\ contains t "X is ...".
Proof.
  destruct (end_to_end_scenario (rt := sound_runtime)
              (fixed_llm "X is ..." search_X)
              (fixed_store [passage_A; passage_B]) plain_prompt (start ∅)
              _ search_X passage_A passage_B _ _ _ _ _ _
              (fun n op => eq_refl) eq_refl eq_refl eq_refl eq_refl eq_refl
              eq_refl eq_refl eq_refl eq_refl eq_refl eq_refl)
    as (Hans & _ & Htranscript).
  split; [exact Hans|exact Htranscript].
Defined.

(** * Further properties of the steps *)

(** ** More on joined strings *)

Lemma concat_all_take_prefix (k : nat) (ds : list string) :
  exists rest, concat_all ds = concat_all (take k ds) +:+ rest.
Proof.
  exists (concat_all (drop k ds)).
  now rewrite <- concat_all_app, take_drop.
Qed.

Lemma join_cons2 (sep x y : string) (l : list string) :
  join sep (x :: y :: l) = x +:+ sep +:+ join sep (y :: l).
Proof. reflexivity. Qed.

Lemma join_contains_part (sep : string) (parts : list string) (i : nat)
    (part : string) :
  parts !! i = Some part -> contains (join sep parts) part.
Proof.
  revert i. induction parts as [|x parts IH]; intros i H; [discriminate|].
  destruct i as [|i]; simpl in H.
  - injection H as ->. destruct parts as [|y parts].
    + exists "", "". now rewrite append_empty_l, append_empty_r.
    + rewrite join_cons2. apply contains_refl_l.
  - destruct parts as [|y parts]; [discriminate|].
    rewrite join_cons2. do 2 apply contains_app_l. now apply (IH i).
Qed.

(** ** More on runs of the transcript block *)

Section MoreRuns.

Context {PromptValue Ext : Type} {rt : Runtime}.
Implicit Types (w : World PromptValue Ext) (e : exn).

Lemma file_events_silent (evs : list (Event PromptValue)) :
  Forall (fun ev => is_file_event ev = true) evs ->
  log_lines evs = [] /\ printed evs = [].
Proof.
  induction 1 as [|ev evs Hev _ [IH1 IH2]]; [split; reflexivity|].
  unfold log_lines, printed in *.
  destruct ev; try discriminate; simpl; auto.
Qed.

Lemma writes_closes (p : string) (ds : list string) :
  close_requests (map (@EvWrite PromptValue p) ds) = []
  /\ written (map (@EvWrite PromptValue p) ds) = ds.
Proof.
  induction ds as [|d ds [IH1 IH2]]; [split; reflexivity|].
  split; [exact IH1|].
  change (d :: written (map (@EvWrite PromptValue p) ds) = d :: ds).
  now rewrite IH2.
Qed.

(** However a sequence of writes ends, the file holds what it held, then
    the pieces written so far. *)
Lemma for_each_write_files (p : string) (ds : list string) w r w'
    (c : string) :
  for_each (write p) ds w = (r, w') ->
  files w !! p = Some c ->
  exists k, files w' = <[p := c +:+ concat_all (take k ds)]> (files w).
Proof.
  revert w c. induction ds as [|d ds IH]; intros w c H Hc.
  - injection H as <- <-. exists 0. simpl.
    rewrite append_empty_r. symmetry. now apply insert_id.
  - simpl in H. unfold bind, write, file_op in H.
    destruct (io_fault (io_clock w) (OpWrite p d)) as [detail|] eqn:Hf.
    + injection H as <- <-. exists 0. simpl.
      rewrite append_empty_r. symmetry. now apply insert_id.
    + apply (IH _ (c +:+ d)) in H as [k Hk].
      * exists (S k). cbn [files] in Hk. rewrite Hk, Hc. simpl.
        now rewrite insert_insert_eq, append_assoc.
      * cbn [files]. now rewrite Hc, lookup_insert_eq.
Qed.

(** The transcript block and the files: a failing [open] leaves them as
    they were; after a successful [open] the transcript file holds the
    pieces written so far and nothing of what it held. *)
Lemma save_transcript_files (question : string) (docs : list Document)
    (answer : string) w r w' :
  save_transcript question docs answer w = (r, w') ->
  match io_fault (io_clock w) (OpOpenW output_path) with
  | Some d =>
      r = inl (IOError d) /\ files w' = files w /\ trace w' = trace w
  | None =>
      exists k,
        files w'
        = <[output_path :=
              concat_all (take k (transcript_writes question docs answer))]>
            (files w)
  end.
Proof.
  unfold save_transcript, with_open_w, bind, open_w, close, file_op.
  destruct (io_fault (io_clock w) (OpOpenW output_path)) as [d0|] eqn:Ho.
  { intros [= <- <-]. repeat split. }
  destruct (for_each _ _ _) as [rb w1] eqn:Hb.
  apply (for_each_write_files _ _ _ _ _ "") in Hb as [k Hk];
    [|cbn [files]; now rewrite lookup_insert_eq].
  cbn [files] in Hk. rewrite insert_insert_eq, append_empty_l in Hk.
  destruct (io_fault (io_clock w1) (OpClose output_path)) as [dc|];
    intros [= <- <-]; exists k; exact Hk.
Qed.

(** The transcript block when it completes: its file operations. *)
Lemma save_transcript_ok_trace (question : string) (docs : list Document)
    (answer : string) w w' :
  save_transcript question docs answer w = (inr tt, w') ->
  io_clock w' = io_clock w + (length docs + 6) /\
  trace w'
  = trace w
    ++ EvOpenW output_path
       :: map (EvWrite output_path) (transcript_writes question docs answer)
       ++ [EvClose output_path].
Proof.
  unfold save_transcript, with_open_w, bind, open_w, close, file_op.
  destruct (io_fault (io_clock w) (OpOpenW output_path)) as [d0|];
    [discriminate|].
  destruct (for_each _ _ _) as [rb w1] eqn:Hb.
  destruct (io_fault (io_clock w1) (OpClose output_path)) as [dc|];
    [discriminate|].
  intros [= -> <-].
  apply for_each_write_ok in Hb as (_ & Hclk & Ht & _).
  rewrite transcript_writes_length in Hclk.
  cbn [files io_clock ext trace] in *. split; [lia|].
  rewrite Ht. norm_trace. reflexivity.
Qed.

(** When [close] never fails, the transcript block closes the file
    whenever it has opened it. *)
Lemma save_transcript_closes (question : string) (docs : list Document)
    (answer : string) w r w' :
  (forall n, io_fault n (OpClose output_path) = None) ->
  save_transcript question docs answer w = (r, w') ->
  exists evs,
    trace w' = trace w ++ evs /\
    Forall (fun ev => is_file_event ev = true) evs /\
    length (close_requests evs) = length (open_requests evs).
Proof.
  intros Hclose.
  unfold save_transcript, with_open_w, bind, open_w, close, file_op.
  destruct (io_fault (io_clock w) (OpOpenW output_path)) as [d0|].
  { intros [= <- <-]. exists []. cbn [trace]. rewrite app_nil_r.
    repeat split. constructor. }
  destruct (for_each _ _ _) as [rb w1] eqn:Hb.
  apply for_each_write_any in Hb as (_ & _ & [k Ht] & _).
  rewrite Hclose. intros [= <- <-]. cbn [trace] in *.
  pose proof (writes_are_file_events (PromptValue := PromptValue) output_path
                (take k (transcript_writes question docs answer)))
    as [Hfe Hop].
  pose proof (writes_closes output_path
                (take k (transcript_writes question docs answer)))
    as [Hcl _].
  eexists. rewrite Ht. norm_trace. split; [reflexivity|]. split.
  - constructor; [reflexivity|]. apply Forall_app. split; [exact Hfe|].
    constructor; [reflexivity|constructor].
  - unfold close_requests, open_requests in *. simpl.
    rewrite !List.filter_app, Hop, Hcl. reflexivity.
Qed.

End MoreRuns.

(** Projections of a trace, unfolded and pushed through appends. *)
Ltac split_requests :=
  unfold search_requests, prompt_requests, llm_requests, structured_requests,
    structured_output_requests, file_events, open_requests, close_requests,
    written, log_lines, printed in *;
  rewrite ?omap_app, ?List.filter_app.

(** ** [analyze_query_step] *)

Section AnalyzerFacts.

Context {PromptValue Ext : Type} {rt : Runtime}.
Implicit Types (w : World PromptValue Ext)
  (llm : LanguageModel PromptValue Ext).

(** X1: [analyze_query_step] never touches the file system nor the other
    collaborators: in every run, failed or not, the files are as they
    were, no file operation is attempted, and the trace holds no file
    event, no similarity search, no template call and no plain model
    invocation. *)
Theorem analyze_query_step_leaves_files (Q : string) llm w :
  files (snd (analyze_query_step Q llm w)) = files w /\
  io_clock (snd (analyze_query_step Q llm w)) = io_clock w /\
  exists evs,
    trace (snd (analyze_query_step Q llm w)) = trace w ++ evs /\
    file_events evs = [] /\ search_requests evs = [] /\
    prompt_requests evs = [] /\ llm_requests evs = [].
Proof.
  rewrite analyze_query_step_unfold. cbn zeta.
  destruct (with_structured_output llm (ext w)) as [[d|sm] x1].
  { repeat split. eexists. split; [reflexivity|]. repeat split. }
  destruct (structured_invoke sm Q x1) as [[d|s] x2];
    (repeat split; eexists;
     split; [cbn [snd trace]; norm_trace; reflexivity|]; repeat split).
Qed.

(** X2: in every run [analyze_query_step] asks for the structured-output
    variant exactly once; when it gets one it invokes it exactly once, on
    the question itself, unchanged; when it does not, it invokes
    nothing. *)
Theorem analyze_query_step_asks_question_once (Q : string) llm w :
  exists evs,
    trace (snd (analyze_query_step Q llm w)) = trace w ++ evs /\
    structured_output_requests evs = [tt] /\
    structured_requests evs
    = match fst (with_structured_output llm (ext w)) with
      | inr _ => [Q]
      | inl _ => []
      end.
Proof.
  rewrite analyze_query_step_unfold. cbn zeta.
  destruct (with_structured_output llm (ext w)) as [[d|sm] x1].
  { eexists. split; [reflexivity|]. split; reflexivity. }
  destruct (structured_invoke sm Q x1) as [[d|s] x2];
    (eexists; split; [cbn [snd trace]; norm_trace; reflexivity|]);
    split; reflexivity.
Qed.

(** X3: the log of [analyze_query_step]: every run first logs the
    question between quotes, before any model call; the line
    ["Structured query: ..."] with the returned query is logged exactly
    when the step returns, and never on a failed run. *)
Theorem analyze_query_step_log_lines (Q : string) llm w :
  exists evs,
    trace (snd (analyze_query_step Q llm w)) = trace w ++ evs /\
    (exists rest,
        evs = EvLogInfo ("Step: Query Analysis for question: '" +:+ Q +:+ "'")
              :: rest) /\
    log_lines evs
    = ("Step: Query Analysis for question: '" +:+ Q +:+ "'")
      :: match fst (analyze_query_step Q llm w) with
         | inr query_structured =>
             ["Structured query: " +:+ str_search query_structured]
         | inl _ => []
         end.
Proof.
  rewrite analyze_query_step_unfold. cbn zeta.
  destruct (with_structured_output llm (ext w)) as [[d|sm] x1].
  { eexists. split; [reflexivity|]. split; [eexists|]; reflexivity. }
  destruct (structured_invoke sm Q x1) as [[d|s] x2];
    (eexists; split; [cbn [snd trace]; norm_trace; reflexivity|]);
    (split; [eexists|]; reflexivity).
Qed.

End AnalyzerFacts.

(** ** [retrieve_step] *)

Section RetrieverFacts.

Context {PromptValue Ext : Type} {rt : Runtime}.
Implicit Types (w : World PromptValue Ext) (vs : VectorStore Ext)
  (sq : gmap string string).

(** X4: [retrieve_step] never touches the file system nor the model: in
    every run, failed or not, the files are as they were, no file
    operation is attempted, and the trace holds no file event, no template
    call and no model request of either kind. *)
Theorem retrieve_step_leaves_files sq vs w :
  files (snd (retrieve_step sq vs w)) = files w /\
  io_clock (snd (retrieve_step sq vs w)) = io_clock w /\
  exists evs,
    trace (snd (retrieve_step sq vs w)) = trace w ++ evs /\
    file_events evs = [] /\ prompt_requests evs = [] /\
    llm_requests evs = [] /\ structured_requests evs = [] /\
    structured_output_requests evs = [].
Proof.
  rewrite retrieve_step_unfold. cbn zeta.
  destruct (sq !! "query") as [q|].
  2:{ repeat split. eexists. split; [reflexivity|]. repeat split. }
  destruct (similarity_search vs q 8 (ext w)) as [[d|docs] x1].
  { repeat split. eexists.
    split; [cbn [snd trace]; norm_trace; reflexivity|]. repeat split. }
  destruct (sq !! "section") as [s|];
    (repeat split; eexists;
     split; [cbn [snd trace]; norm_trace; reflexivity|]; repeat split).
Qed.

(** X5: the search requests of [retrieve_step], in every run: without the
    ["query"] key it issues none and leaves the collaborators as they
    were; with it, it issues exactly one, for the query text with [k = 8],
    whether or not the ["section"] key is there and whether or not the
    search succeeds. *)
Theorem retrieve_step_search_requests sq vs w :
  (exists evs,
      trace (snd (retrieve_step sq vs w)) = trace w ++ evs /\
      search_requests evs
      = match sq !! "query" with
        | Some q => [(q, 8)]
        | None => []
        end) /\
  (sq !! "query" = None -> ext (snd (retrieve_step sq vs w)) = ext w).
Proof.
  rewrite retrieve_step_unfold. cbn zeta.
  destruct (sq !! "query") as [q|].
  2:{ split; [|reflexivity]. eexists. split; reflexivity. }
  split; [|discriminate].
  destruct (similarity_search vs q 8 (ext w)) as [[d|docs] x1].
  { eexists. split; [cbn [snd trace]; norm_trace; reflexivity|reflexivity]. }
  destruct (sq !! "section") as [s|];
    (eexists; split; [cbn [snd trace]; norm_trace; reflexivity|reflexivity]).
Qed.

(** X6: the log of [retrieve_step]: every run first logs the structured
    query; the line ["Retrieved n documents for section 's'."] is logged
    exactly when the step returns, with [n] the number of passages it
    returns and [s] the value under ["section"], and never on a failed
    run. *)
Theorem retrieve_step_log_lines sq vs w :
  exists evs,
    trace (snd (retrieve_step sq vs w)) = trace w ++ evs /\
    log_lines evs
    = ("Step: retrieve for structured query: " +:+ str_search sq)
      :: match fst (retrieve_step sq vs w), sq !! "section" with
         | inr retrieved_docs, Some s =>
             ["Retrieved " +:+ str_of_nat (length retrieved_docs)
              +:+ " documents for section '" +:+ s +:+ "'."]
         | _, _ => []
         end.
Proof.
  rewrite retrieve_step_unfold. cbn zeta.
  destruct (sq !! "query") as [q|].
  2:{ eexists. split; reflexivity. }
  destruct (similarity_search vs q 8 (ext w)) as [[d|docs] x1].
  { eexists. split; [cbn [snd trace]; norm_trace; reflexivity|reflexivity]. }
  destruct (sq !! "section") as [s|];
    (eexists; split; [cbn [snd trace]; norm_trace; reflexivity|reflexivity]).
Qed.

End RetrieverFacts.

(** ** [generate_step] *)

Section GeneratorFacts.

Context {PromptValue Ext : Type} {rt : Runtime}.
Implicit Types (w : World PromptValue Ext)
  (llm : LanguageModel PromptValue Ext)
  (prompt : PromptTemplate PromptValue Ext).

Lemma lookup_map {A B : Type} (f : A -> B) (l : list A) (i : nat) (x : A) :
  l !! i = Some x -> map f l !! i = Some (f x).
Proof.
  revert i. induction l as [|y l IH]; intros i H; [discriminate|].
  destruct i as [|i]; simpl in *; [now injection H as ->|now apply IH].
Qed.

(** The run of [generate_step] once the model has answered: what is left
    is the transcript block and, if it completes, the closing log line. *)
Lemma generate_step_answered (question : string) (docs : list Document)
    llm prompt w (m : PromptValue) (x1 x2 : Ext) (response : Response) :
  prompt_invoke prompt (prompt_args question docs) (ext w) = (inr m, x1) ->
  invoke llm m x1 = (inr response, x2) ->
  exists r4 w4,
    save_transcript question docs (content response)
      (mkWorld x2 (files w) (io_clock w)
         (trace w ++ generate_preamble question docs
          ++ [EvPromptInvoke (prompt_args question docs); EvLlmInvoke m;
              EvPrint (nl +:+ "Generated answer: " +:+ content response)]))
    = (r4, w4) /\
    fst (generate_step question docs llm prompt w)
    = match r4 with
      | inl e => inl e
      | inr _ => inr (content response)
      end /\
    files (snd (generate_step question docs llm prompt w)) = files w4 /\
    io_clock (snd (generate_step question docs llm prompt w)) = io_clock w4 /\
    trace (snd (generate_step question docs llm prompt w))
    = trace w4
      ++ match r4 with
         | inl _ => []
         | inr _ => [EvLogInfo (nl +:+ "Output saved to " +:+ output_path)]
         end.
Proof.
  intros Hp Hl. rewrite generate_step_unfold. cbn zeta. rewrite Hp, Hl.
  norm_trace.
  destruct (save_transcript _ _ _ _) as [r4 w4]. exists r4, w4.
  split; [reflexivity|].
  destruct r4 as [e|[]]; cbn [fst snd files io_clock trace];
    rewrite ?app_nil_r; repeat split.
Qed.

Lemma generate_step_ok_files (question : string) (docs : list Document)
    llm prompt w (answer : string) :
  fst (generate_step question docs llm prompt w) = inr answer ->
  files (snd (generate_step question docs llm prompt w))
  = <[output_path := transcript question docs answer]> (files w).
Proof.
  rewrite generate_step_unfold. cbn zeta.
  destruct (prompt_invoke prompt _ (ext w)) as [[d|m] x1]; [discriminate|].
  destruct (invoke llm m x1) as [[d|response] x2]; [discriminate|].
  destruct (save_transcript _ _ _ _) as [[e|[]] w4] eqn:Hsave;
    [discriminate|].
  intros [= <-]. now apply save_transcript_ok in Hsave as [Hfiles _].
Qed.

(** X7: when the prompt template fails, [generate_step] raises the
    template's error at once: the model is never invoked, no file
    operation is attempted and the files are as they were. *)
Theorem generate_step_template_failure
    (question : string) (docs : list Document) llm prompt w
    (d : string) (x1 : Ext) :
  prompt_invoke prompt (prompt_args question docs) (ext w) = (inl d, x1) ->
  fst (generate_step question docs llm prompt w)
  = inl (PromptTemplateError d) /\
  files (snd (generate_step question docs llm prompt w)) = files w /\
  io_clock (snd (generate_step question docs llm prompt w)) = io_clock w /\
  exists evs,
    trace (snd (generate_step question docs llm prompt w)) = trace w ++ evs /\
    llm_requests evs = [] /\ file_events evs = [].
Proof.
  intros Hp. rewrite generate_step_unfold. cbn zeta. rewrite Hp.
  repeat split. eexists. split; [reflexivity|].
  destruct docs; split; reflexivity.
Qed.

(** X8: when the model has answered and opening the transcript file
    fails, [generate_step] raises the I/O error instead of returning the
    answer: the model call is spent (it was invoked once), the answer was
    printed, and the files, the old transcript included, are as they
    were. *)
Theorem generate_step_open_failure
    (question : string) (docs : list Document) llm prompt w
    (m : PromptValue) (x1 x2 : Ext) (response : Response) (d : string) :
  prompt_invoke prompt (prompt_args question docs) (ext w) = (inr m, x1) ->
  invoke llm m x1 = (inr response, x2) ->
  io_fault (io_clock w) (OpOpenW output_path) = Some d ->
  fst (generate_step question docs llm prompt w) = inl (IOError d) /\
  files (snd (generate_step question docs llm prompt w)) = files w /\
  exists evs,
    trace (snd (generate_step question docs llm prompt w)) = trace w ++ evs /\
    llm_requests evs = [m] /\ file_events evs = [] /\
    In (nl +:+ "Generated answer: " +:+ content response) (printed evs).
Proof.
  intros Hp Hl Ho.
  destruct (generate_step_answered question docs llm prompt w m x1 x2
              response Hp Hl)
    as (r4 & w4 & Hsave & Hr & Hf & _ & Ht).
  apply save_transcript_files in Hsave. cbn [io_clock files trace] in Hsave.
  rewrite Ho in Hsave. destruct Hsave as (-> & Hf4 & Ht4).
  rewrite Hr, Hf, Hf4, Ht, Ht4. repeat split.
  eexists. rewrite app_nil_r. split; [reflexivity|].
  destruct docs; repeat split; simpl; auto.
Qed.

(** X9: once the transcript file has been opened, whatever it held
    before is gone, however the run ends: the file then holds a prefix of
    the run's transcript (all of it when the run completes, less when a
    write fails). *)
Theorem generate_step_partial_transcript
    (question : string) (docs : list Document) llm prompt w
    (m : PromptValue) (x1 x2 : Ext) (response : Response) :
  prompt_invoke prompt (prompt_args question docs) (ext w) = (inr m, x1) ->
  invoke llm m x1 = (inr response, x2) ->
  io_fault (io_clock w) (OpOpenW output_path) = None ->
  exists held rest,
    files (snd (generate_step question docs llm prompt w)) !! output_path
    = Some held /\
    transcript question docs (content response) = held +:+ rest.
Proof.
  intros Hp Hl Ho.
  destruct (generate_step_answered question docs llm prompt w m x1 x2
              response Hp Hl)
    as (r4 & w4 & Hsave & _ & Hf & _ & _).
  apply save_transcript_files in Hsave. cbn [io_clock files trace] in Hsave.
  rewrite Ho in Hsave. destruct Hsave as [k Hk].
  destruct (concat_all_take_prefix k
              (transcript_writes question docs (content response)))
    as [rest Hrest].
  rewrite concat_transcript_writes in Hrest.
  eexists _, rest. rewrite Hf, Hk, lookup_insert_eq. split; [reflexivity|].
  exact Hrest.
Qed.

(** X10: [generate_step] touches no file but the transcript: in every
    run, failed or not, every other path holds what it held. *)
Theorem generate_step_other_files
    (question : string) (docs : list Document) llm prompt w (p : string) :
  p <> output_path ->
  files (snd (generate_step question docs llm prompt w)) !! p
  = files w !! p.
Proof.
  intros Hne.
  destruct (prompt_invoke prompt (prompt_args question docs) (ext w))
    as [[d|m] x1] eqn:Hp.
  { rewrite generate_step_unfold. cbn zeta. now rewrite Hp. }
  destruct (invoke llm m x1) as [[d|response] x2] eqn:Hl.
  { rewrite generate_step_unfold. cbn zeta. now rewrite Hp, Hl. }
  destruct (generate_step_answered question docs llm prompt w m x1 x2
              response Hp Hl)
    as (r4 & w4 & Hsave & _ & Hf & _ & _).
  apply save_transcript_files in Hsave. cbn [io_clock files trace] in Hsave.
  rewrite Hf.
  destruct (io_fault (io_clock w) (OpOpenW output_path)) as [d|].
  - destruct Hsave as (_ & -> & _). reflexivity.
  - destruct Hsave as [k ->]. now rewrite lookup_insert_ne.
Qed.

(** X11: the file operations of a run of [generate_step] that returns:
    one open of the transcript path, then one write per passage and four
    more, whose pieces put together are the transcript, then one close;
    [length docs + 6] operations in all, none of them failed. *)
Theorem generate_step_file_operations
    (question : string) (docs : list Document) llm prompt w
    (answer : string) :
  fst (generate_step question docs llm prompt w) = inr answer ->
  io_clock (snd (generate_step question docs llm prompt w))
  = io_clock w + (length docs + 6) /\
  exists evs,
    trace (snd (generate_step question docs llm prompt w)) = trace w ++ evs /\
    open_requests evs = [EvOpenW output_path] /\
    close_requests evs = [EvClose output_path] /\
    length (written evs) = length docs + 4 /\
    concat_all (written evs) = transcript question docs answer.
Proof.
  intros Hret.
  destruct (prompt_invoke prompt (prompt_args question docs) (ext w))
    as [[d|m] x1] eqn:Hp.
  { revert Hret. rewrite generate_step_unfold. cbn zeta. now rewrite Hp. }
  destruct (invoke llm m x1) as [[d|response] x2] eqn:Hl.
  { revert Hret. rewrite generate_step_unfold. cbn zeta. now rewrite Hp, Hl. }
  destruct (generate_step_answered question docs llm prompt w m x1 x2
              response Hp Hl)
    as (r4 & w4 & Hsave & Hr & _ & Hc & Ht).
  rewrite Hr in Hret. destruct r4 as [e|[]]; [discriminate|].
  injection Hret as <-.
  apply save_transcript_ok_trace in Hsave as [Hclk Htr].
  cbn [io_clock trace] in *. rewrite Hc, Ht, Htr. split; [exact Hclk|].
  pose proof (writes_are_file_events (PromptValue := PromptValue) output_path
                (transcript_writes question docs (content response)))
    as [_ Hop].
  pose proof (writes_closes (PromptValue := PromptValue) output_path
                (transcript_writes question docs (content response)))
    as [Hcl Hwr].
  exists (generate_preamble question docs
          ++ [EvPromptInvoke (prompt_args question docs); EvLlmInvoke m;
              EvPrint (nl +:+ "Generated answer: " +:+ content response)]
          ++ [EvOpenW output_path]
          ++ map (EvWrite output_path)
                 (transcript_writes question docs (content response))
          ++ [EvClose output_path]
          ++ [EvLogInfo (nl +:+ "Output saved to " +:+ output_path)]).
  split; [do 2 norm_trace; reflexivity|].
  split_requests. rewrite Hop, Hcl, Hwr.
  assert (List.filter is_open_event
            (generate_preamble (PromptValue := PromptValue) question docs)
          = []
          /\ List.filter is_close_event
               (generate_preamble (PromptValue := PromptValue) question docs)
             = []
          /\ omap (fun e : Event PromptValue =>
                     match e with
                     | EvWrite _ data => Some data
                     | _ => None
                     end)
                  (generate_preamble question docs)
             = []) as (-> & -> & ->)
    by (destruct docs; repeat split).
  cbn [app omap list_omap List.filter is_open_event is_close_event].
  rewrite app_nil_r, transcript_writes_length, concat_transcript_writes.
  repeat split.
Qed.

(** The events of a run of [generate_step]: what precedes the transcript
    block, the block's file events, and the closing log line of a run that
    returns. *)
Lemma generate_step_events (question : string) (docs : list Document)
    llm prompt w :
  exists head fevs tail,
    trace (snd (generate_step question docs llm prompt w))
    = trace w ++ head ++ fevs ++ tail /\
    head = generate_preamble question docs
           ++ EvPromptInvoke (prompt_args question docs)
              :: match prompt_invoke prompt (prompt_args question docs)
                         (ext w) with
                 | (inl _, _) => []
                 | (inr m, x1) =>
                     EvLlmInvoke m
                     :: match invoke llm m x1 with
                        | (inl _, _) => []
                        | (inr response, _) =>
                            [EvPrint (nl +:+ "Generated answer: "
                                      +:+ content response)]
                        end
                 end /\
    Forall (fun ev => is_file_event ev = true) fevs /\
    ((forall n, io_fault n (OpClose output_path) = None) ->
     length (close_requests fevs) = length (open_requests fevs)) /\
    tail = match fst (generate_step question docs llm prompt w) with
           | inr _ => [EvLogInfo (nl +:+ "Output saved to " +:+ output_path)]
           | inl _ => []
           end.
Proof.
  destruct (prompt_invoke prompt (prompt_args question docs) (ext w))
    as [[d|m] x1] eqn:Hp.
  { rewrite generate_step_unfold. cbn zeta. rewrite Hp.
    exists (generate_preamble question docs
            ++ [EvPromptInvoke (prompt_args question docs)]), [], [].
    cbn [fst snd trace]. rewrite !app_nil_r.
    split; [norm_trace; reflexivity|]. repeat split. constructor. }
  destruct (invoke llm m x1) as [[d|response] x2] eqn:Hl.
  { rewrite generate_step_unfold. cbn zeta. rewrite Hp, Hl.
    exists (generate_preamble question docs
            ++ [EvPromptInvoke (prompt_args question docs); EvLlmInvoke m]),
      [], [].
    cbn [fst snd trace]. rewrite !app_nil_r.
    split; [norm_trace; reflexivity|]. repeat split. constructor. }
  destruct (generate_step_answered question docs llm prompt w m x1 x2
              response Hp Hl)
    as (r4 & w4 & Hsave & Hr & _ & _ & Ht).
  pose proof Hsave as Hany.
  apply save_transcript_any in Hany as (_ & (fevs & Hfevs & Hfe & _) & _).
  cbn [trace] in Hfevs.
  exists (generate_preamble question docs
          ++ [EvPromptInvoke (prompt_args question docs); EvLlmInvoke m;
              EvPrint (nl +:+ "Generated answer: " +:+ content response)]),
    fevs.
  eexists. rewrite Ht, Hfevs, Hr. split; [do 2 norm_trace; reflexivity|].
  split; [reflexivity|]. split; [exact Hfe|]. split.
  - intros Hclose.
    destruct (save_transcript_closes _ _ _ _ _ _ Hclose Hsave)
      as (fevs' & Hfevs' & _ & Hcount).
    cbn [trace] in Hfevs'. rewrite Hfevs in Hfevs'.
    apply app_inv_head in Hfevs'. now subst fevs'.
  - destruct r4; reflexivity.
Qed.

(** X12: [generate_step] does not leave the transcript file open: when
    closing never fails, every run, also one in which a write fails,
    closes the file as often as it opens it. *)
Theorem generate_step_closes_file
    (question : string) (docs : list Document) llm prompt w :
  (forall n, io_fault n (OpClose output_path) = None) ->
  exists evs,
    trace (snd (generate_step question docs llm prompt w)) = trace w ++ evs /\
    length (close_requests evs) = length (open_requests evs).
Proof.
  intros Hclose.
  destruct (generate_step_events question docs llm prompt w)
    as (head & fevs & tail & Ht & Hhead & _ & Hcount & Htail).
  exists (head ++ fevs ++ tail). split; [exact Ht|].
  assert (close_requests head = [] /\ open_requests head = []) as [Hc Ho].
  { subst head. unfold close_requests, open_requests.
    rewrite !List.filter_app.
    destruct docs as [|doc0 docs0];
      destruct (prompt_invoke prompt _ (ext w)) as [[d|m] x1];
      try destruct (invoke llm m x1) as [[d|response] x2];
      split; reflexivity. }
  assert (close_requests tail = [] /\ open_requests tail = []) as [Hc' Ho'].
  { subst tail. destruct (fst (generate_step question docs llm prompt w));
      split; reflexivity. }
  unfold close_requests, open_requests in *.
  rewrite !List.filter_app, Hc, Ho, Hc', Ho', !app_nil_r. cbn [app].
  now apply Hcount.
Qed.

(** X13: no history is kept: after two runs of [generate_step] that both
    return, the second starting where the first ended, the transcript
    file holds the transcript of the second run alone and every other
    file is as it was before the first. *)
Theorem generate_step_twice
    (question1 question2 : string) (docs1 docs2 : list Document)
    llm prompt w (answer1 answer2 : string) :
  fst (generate_step question1 docs1 llm prompt w) = inr answer1 ->
  fst (generate_step question2 docs2 llm prompt
         (snd (generate_step question1 docs1 llm prompt w)))
  = inr answer2 ->
  files (snd (generate_step question2 docs2 llm prompt
                (snd (generate_step question1 docs1 llm prompt w))))
  = <[output_path := transcript question2 docs2 answer2]> (files w).
Proof.
  intros H1 H2.
  rewrite (generate_step_ok_files _ _ _ _ _ _ H2).
  rewrite (generate_step_ok_files _ _ _ _ _ _ H1).
  apply insert_insert_eq.
Qed.

(** X14: nothing retrieved is left out of the prompt: in every run the
    context handed to the template contains the content of every passage
    of the list. *)
Theorem generate_step_context_has_passages
    (question : string) (docs : list Document) llm prompt w :
  exists evs args context,
    trace (snd (generate_step question docs llm prompt w)) = trace w ++ evs /\
    prompt_requests evs = [args] /\
    args !! "context" = Some context /\
    forall i doc, docs !! i = Some doc -> contains context (page_content doc).
Proof.
  destruct (generate_step_trace question docs llm prompt w)
    as (rest & Ht & Hp & _).
  destruct (preamble_requests (PromptValue := PromptValue) question docs)
    as (Hpp & _).
  eexists _, (prompt_args question docs), (context_block docs).
  split; [exact Ht|]. split; [|split].
  - now rewrite prompt_requests_app, Hpp, prompt_requests_cons, Hp.
  - unfold prompt_args.
    now rewrite lookup_insert_ne, lookup_insert_eq by discriminate.
  - intros i doc Hi. destruct docs as [|d0 docs0]; [discriminate|].
    unfold context_block.
    apply (join_contains_part _ _ i). now apply lookup_map.
Qed.

(** X15: the warning about a missing context goes to standard output, not
    to the logger, and exactly when the passage list is empty: in every
    run it is among the printed lines if and only if there is no passage,
    and it is never among the log lines. *)
Theorem generate_step_warning
    (question : string) (docs : list Document) llm prompt w :
  exists evs,
    trace (snd (generate_step question docs llm prompt w)) = trace w ++ evs /\
    (In "Warning: No context provided for generation. LLM may answer from general knowledge."
        (printed evs) <-> docs = []) /\
    ~ In "Warning: No context provided for generation. LLM may answer from general knowledge."
         (log_lines evs).
Proof.
  destruct (generate_step_events question docs llm prompt w)
    as (head & fevs & tail & Ht & Hhead & Hfe & _ & Htail).
  exists (head ++ fevs ++ tail). split; [exact Ht|].
  destruct (file_events_silent fevs Hfe) as [Hlog Hprint].
  assert (exists ans,
             printed head
             = match docs with
               | [] => ["Warning: No context provided for generation. LLM may answer from general knowledge."]
               | _ :: _ => []
               end ++ ans
             /\ forall x, In x ans -> exists s, x = nl +:+ s)
    as (ans & Hph & Hans).
  { subst head. unfold printed. rewrite omap_app.
    destruct (prompt_invoke prompt _ (ext w)) as [[d|m] x1];
      [exists []
      |destruct (invoke llm m x1) as [[d|response] x2];
       [exists []
       |exists [nl +:+ "Generated answer: " +:+ content response]]];
      (split; [destruct docs; reflexivity|]); intros x Hx;
      try contradiction.
    destruct Hx as [<-|[]]. eexists. reflexivity. }
  assert (log_lines head
          = ["Step: generate for question: '" +:+ question +:+ "'"]) as Hlh.
  { subst head. unfold log_lines. rewrite omap_app.
    destruct docs as [|doc0 docs0];
      destruct (prompt_invoke prompt _ (ext w)) as [[d|m] x1];
      try destruct (invoke llm m x1) as [[d|response] x2];
      reflexivity. }
  assert (printed tail = []
          /\ forall x, In x (log_lines tail) -> exists s, x = nl +:+ s)
    as [Htp Htl].
  { subst tail. destruct (fst (generate_step question docs llm prompt w));
      (split; [reflexivity|]); intros x Hx; try contradiction.
    destruct Hx as [<-|[]]. eexists. reflexivity. }
  unfold printed, log_lines in *.
  rewrite !omap_app, Hph, Hprint, Htp, Hlh, Hlog, !app_nil_r. split.
  - split.
    + intros Hin. apply in_app_or in Hin as [Hin|Hin].
      * destruct docs; [reflexivity|contradiction].
      * destruct (Hans _ Hin) as [s Hs]. discriminate Hs.
    + intros ->. left. reflexivity.
  - intros Hin. apply in_app_or in Hin as [Hin|Hin].
    + destruct Hin as [Hin|[]]. discriminate Hin.
    + destruct (Htl _ Hin) as [s Hs]. discriminate Hs.
Qed.

(** X16: the log of [generate_step]: every run first logs the question;
    the line ["\nOutput saved to ..."] is logged exactly when the step
    returns, and never on a failed run, whichever call or file operation
    failed. *)
Theorem generate_step_log_lines
    (question : string) (docs : list Document) llm prompt w :
  exists evs,
    trace (snd (generate_step question docs llm prompt w)) = trace w ++ evs /\
    log_lines evs
    = ("Step: generate for question: '" +:+ question +:+ "'")
      :: match fst (generate_step question docs llm prompt w) with
         | inr _ => [nl +:+ "Output saved to " +:+ output_path]
         | inl _ => []
         end.
Proof.
  destruct (generate_step_events question docs llm prompt w)
    as (head & fevs & tail & Ht & Hhead & Hfe & _ & Htail).
  exists (head ++ fevs ++ tail). split; [exact Ht|].
  destruct (file_events_silent fevs Hfe) as [Hlog _].
  unfold log_lines in *.
  rewrite !omap_app, Hlog. subst head tail. rewrite !omap_app.
  destruct docs as [|doc0 docs0];
    destruct (prompt_invoke prompt _ (ext w)) as [[d|m] x1];
    try destruct (invoke llm m x1) as [[d|response] x2];
    destruct (fst (generate_step question _ llm prompt w));
    reflexivity.
Qed.

End GeneratorFacts.

(** ** The further properties at work on the stub collaborators *)

Lemma generate_step_template_failure_witness :
  fst (generate_step (rt := sound_runtime) "What is X?" [passage_A]
         (fixed_llm "X is ..." search_X) broken_prompt
         (start {[ output_path := "stale" ]}))
  = inl (PromptTemplateError "missing variable")
  /\ files (snd (generate_step (rt := sound_runtime) "What is X?" [passage_A]
                   (fixed_llm "X is ..." search_X) broken_prompt
                   (start {[ output_path := "stale" ]})))
     = {[ output_path := "stale" ]}.
Proof.
  destruct (generate_step_template_failure (rt := sound_runtime)
              "What is X?" [passage_A] (fixed_llm "X is ..." search_X)
              broken_prompt (start {[ output_path := "stale" ]})
              "missing variable" 0 eq_refl)
    as (Hr & Hf & _).
  split; [exact Hr|exact Hf].
Defined.

Lemma generate_step_open_failure_witness :
  fst (generate_step (rt := faulty_runtime 0) "What is X?" [passage_A]
         (fixed_llm "X is ..." search_X) plain_prompt
         (start {[ output_path := "stale" ]}))
  = inl (IOError "disk full")
  /\ files (snd (generate_step (rt := faulty_runtime 0) "What is X?"
                   [passage_A] (fixed_llm "X is ..." search_X) plain_prompt
                   (start {[ output_path := "stale" ]})))
     = {[ output_path := "stale" ]}.
Proof.
  destruct (generate_step_open_failure (rt := faulty_runtime 0)
              "What is X?" [passage_A] (fixed_llm "X is ..." search_X)
              plain_prompt (start {[ output_path := "stale" ]})
              _ _ _ _ "disk full" eq_refl eq_refl eq_refl)
    as (Hr & Hf & _).
  split; [exact Hr|exact Hf].
Defined.

Lemma generate_step_partial_transcript_witness :
  exists held rest,
    files (snd (generate_step (rt := faulty_runtime 3) "What is X?"
                  [passage_A] (fixed_llm "X is ..." search_X) plain_prompt
                  (start {[ output_path := "stale" ]})))
    !! output_path = Some held
    /\ transcript "What is X?" [passage_A] "X is ..." = held +:+ rest.
Proof.
  apply (generate_step_partial_transcript (rt := faulty_runtime 3)
           "What is X?" [passage_A] (fixed_llm "X is ..." search_X)
           plain_prompt (start {[ output_path := "stale" ]})
           _ _ _ (mkResponse "X is ...") eq_refl eq_refl eq_refl).
Defined.

Lemma generate_step_other_files_witness :
  files (snd (generate_step (rt := sound_runtime) "What is X?" [passage_A]
                (fixed_llm "X is ..." search_X) plain_prompt
                (start {[ "notes.txt" := "keep" ]})))
  !! "notes.txt"
  = Some "keep".
Proof.
  rewrite (generate_step_other_files (rt := sound_runtime) "What is X?"
             [passage_A] (fixed_llm "X is ..." search_X) plain_prompt
             (start {[ "notes.txt" := "keep" ]}) "notes.txt").
  - reflexivity.
  - discriminate.
Defined.

Lemma generate_step_file_operations_witness :
  io_clock (snd (generate_step (rt := sound_runtime) "What is X?"
                   [passage_A; passage_B] (fixed_llm "X is ..." search_X)
                   plain_prompt (start ∅)))
  = 8.
Proof.
  destruct (generate_step_file_operations (rt := sound_runtime)
              "What is X?" [passage_A; passage_B]
              (fixed_llm "X is ..." search_X) plain_prompt (start ∅)
              "X is ...")
    as [Hclock _].
  - vm_compute. reflexivity.
  - exact Hclock.
Defined.

Lemma generate_step_closes_file_witness :
  exists evs,
    trace (snd (generate_step (rt := write_faulty_runtime 3) "What is X?"
                  [passage_A] (fixed_llm "X is ..." search_X) plain_prompt
                  (start ∅)))
    = [] ++ evs
    /\ length (close_requests evs) = length (open_requests evs).
Proof.
  apply (generate_step_closes_file (rt := write_faulty_runtime 3)
           "What is X?" [passage_A] (fixed_llm "X is ..." search_X)
           plain_prompt (start ∅)).
  intros n. reflexivity.
Defined.

Lemma generate_step_twice_witness :
  files (snd (generate_step (rt := sound_runtime) "What is B?" [passage_B]
                (fixed_llm "X is ..." search_X) plain_prompt
                (snd (generate_step (rt := sound_runtime) "What is A?"
                        [passage_A] (fixed_llm "X is ..." search_X)
                        plain_prompt (start ∅)))))
  = <[output_path := transcript "What is B?" [passage_B] "X is ..."]> ∅.
Proof.
  apply (generate_step_twice (rt := sound_runtime) "What is A?" "What is B?"
           [passage_A] [passage_B] (fixed_llm "X is ..." search_X)
           plain_prompt (start ∅) "X is ..." "X is ...").
  - vm_compute. reflexivity.
  - vm_compute. reflexivity.
Defined.
